(** * JAdES signature-request builder: [Sign] and [JWTSigner]

    Shallow embedding of [packages/jades/src/sign.ts] and of the revision of
    the same class that [examples/sd-jwt-vcdm-example/src/app.service.ts]
    carries (the one whose [sign] takes a [kid] and stores the General JWS).

    JavaScript values are an inductive type, objects are association lists in
    property order, methods run in a state-and-exception monad over the
    instance and the trace of calls into the crypto primitive. *)

From Stdlib Require Import String Ascii List ZArith NArith Bool Lia.
From Stdlib.Strings Require Import Byte.
From Stdlib Require Import DecimalString.
Import ListNotations.
Local Open Scope string_scope.
#[local] Set Warnings "-register-all".

(** ** JavaScript values *)

(** The values the header mapping can hold.  Strings are the UTF-8 bytes of
    the JavaScript string; numbers are the integral ones (the code only ever
    produces [Math.floor] of a clock reading). *)
Inductive value : Type :=
| VUndefined
| VNull
| VBool (b : bool)
| VNum (n : Z)
| VStr (s : string)
| VArr (elems : list value)
| VObj (props : list (string * value)).

(** An object: its own enumerable string-keyed properties, in property order. *)
Definition object : Type := list (string * value).

(** [o.k]: the value of the first property named [k], [undefined] if none. *)
Fixpoint obj_get (k : string) (o : object) : value :=
  match o with
  | [] => VUndefined
  | (k', v) :: o' => if String.eqb k k' then v else obj_get k o'
  end.

(** [k in o] / [Object.keys(o).includes(k)]. *)
Fixpoint obj_has (k : string) (o : object) : bool :=
  match o with
  | [] => false
  | (k', _) :: o' => if String.eqb k k' then true else obj_has k o'
  end.

(** [o.k = v] for a key that is not an array index (every key this program
    assigns is such a key): an existing property keeps its place, a new one
    goes last. *)
Fixpoint obj_set (k : string) (v : value) (o : object) : object :=
  match o with
  | [] => [(k, v)]
  | (k', v') :: o' =>
      if String.eqb k k' then (k, v) :: o' else (k', v') :: obj_set k v o'
  end.

(** [delete o.k]; the program never does this, it is what the specification
    compares [setB64(true)] with. *)
Fixpoint obj_delete (k : string) (o : object) : object :=
  match o with
  | [] => []
  | (k', v') :: o' =>
      if String.eqb k k' then o' else (k', v') :: obj_delete k o'
  end.

(** [!v] is [negb (truthy v)]. *)
Definition truthy (v : value) : bool :=
  match v with
  | VUndefined | VNull => false
  | VBool b => b
  | VNum n => negb (Z.eqb n 0)
  | VStr s => negb (String.eqb s EmptyString)
  | VArr _ | VObj _ => true
  end.

(** [v === 'lit'] for a string literal. *)
Definition strict_eq_str (v : value) (lit : string) : bool :=
  match v with
  | VStr s => String.eqb s lit
  | _ => false
  end.

(** [String(n)] of an integer below [10^21] in size: plain decimal. *)
Definition number_to_string (n : Z) : string :=
  NilZero.string_of_int (Z.to_int n).

Fixpoint join (sep : string) (l : list string) : string :=
  match l with
  | [] => EmptyString
  | [s] => s
  | s :: l' => s ++ sep ++ join sep l'
  end.

(** [String(v)], as a template literal applies it. *)
Fixpoint js_to_string (v : value) : string :=
  match v with
  | VUndefined => "undefined"
  | VNull => "null"
  | VBool true => "true"
  | VBool false => "false"
  | VNum n => number_to_string n
  | VStr s => s
  | VArr elems =>
      join "," (map (fun e => match e with
                              | VUndefined | VNull => EmptyString
                              | _ => js_to_string e
                              end) elems)
  | VObj _ => "[object Object]"
  end.

(** ** [JSON.stringify] *)

Definition hex_digit (n : N) : ascii :=
  if (n <? 10)%N then ascii_of_N (48 + n) else ascii_of_N (87 + n).

(** One character of a quoted JSON string. *)
Definition json_escape_char (c : ascii) : string :=
  let n := N_of_ascii c in
  if (n =? 34)%N then String "\" (String (ascii_of_N 34) EmptyString)
  else if (n =? 92)%N then "\\"
  else if (n =? 8)%N then "\b"
  else if (n =? 12)%N then "\f"
  else if (n =? 10)%N then "\n"
  else if (n =? 13)%N then "\r"
  else if (n =? 9)%N then "\t"
  else if (n <? 32)%N then
    "\u00" ++ String (hex_digit (n / 16))
                (String (hex_digit (n mod 16)) EmptyString)
  else String c EmptyString.

Fixpoint json_escape (s : string) : string :=
  match s with
  | EmptyString => EmptyString
  | String c s' => json_escape_char c ++ json_escape s'
  end.

Definition json_quote (s : string) : string :=
  String (ascii_of_N 34) (json_escape s ++ String (ascii_of_N 34) EmptyString).

(** [JSON.stringify(v)]; [None] is JavaScript's [undefined] result.  A
    property whose value serialises to [undefined] is left out of an object,
    such an element of an array is written [null]. *)
Fixpoint JSON_stringify (v : value) : option string :=
  match v with
  | VUndefined => None
  | VNull => Some "null"
  | VBool true => Some "true"
  | VBool false => Some "false"
  | VNum n => Some (number_to_string n)
  | VStr s => Some (json_quote s)
  | VArr elems =>
      Some ("[" ++ join "," (map (fun e => match JSON_stringify e with
                                           | Some s => s
                                           | None => "null"
                                           end) elems) ++ "]")
  | VObj props =>
      Some ("{" ++ join ","
              ((fix members (ps : list (string * value)) : list string :=
                  match ps with
                  | [] => []
                  | (k, x) :: ps' =>
                      match JSON_stringify x with
                      | Some s => (json_quote k ++ ":" ++ s) :: members ps'
                      | None => members ps'
                      end
                  end) props) ++ "}")
  end.

(** The members [JSON.stringify] writes for an object, in order. *)
Fixpoint json_members (ps : object) : list string :=
  match ps with
  | [] => []
  | (k, x) :: ps' =>
      match JSON_stringify x with
      | Some s => (json_quote k ++ ":" ++ s) :: json_members ps'
      | None => json_members ps'
      end
  end.

(** [JSON.stringify(o)] for an object [o], which is always a string. *)
Definition JSON_stringify_obj (o : object) : string :=
  "{" ++ join "," (json_members o) ++ "}".

(** ** Buffers and base64 *)

Definition Buffer : Type := list byte.

(** The character of a 6-bit group: RFC 4648 section 4, and section 5 (the
    URL-safe alphabet) when [url] is set. *)
Definition base64_char (url : bool) (i : N) : ascii :=
  if (i <? 26)%N then ascii_of_N (65 + i)
  else if (i <? 52)%N then ascii_of_N (97 + (i - 26))
  else if (i <? 62)%N then ascii_of_N (48 + (i - 52))
  else if (i =? 62)%N then (if url then "-"%char else "+"%char)
  else (if url then "_"%char else "/"%char).

(** Base64 of a byte sequence; the URL-safe form is written without the
    [=] padding, the standard form with it. *)
Fixpoint base64_encode (url : bool) (bs : list N) : string :=
  match bs with
  | [] => EmptyString
  | [a] =>
      String (base64_char url (a / 4))
        (String (base64_char url ((a mod 4) * 16))
           (if url then EmptyString else "=="))
  | [a; b] =>
      String (base64_char url (a / 4))
        (String (base64_char url ((a mod 4) * 16 + b / 16))
           (String (base64_char url ((b mod 16) * 4))
              (if url then EmptyString else "=")))
  | a :: b :: c :: rest =>
      String (base64_char url (a / 4))
        (String (base64_char url ((a mod 4) * 16 + b / 16))
           (String (base64_char url ((b mod 16) * 4 + c / 64))
              (String (base64_char url (c mod 64))
                 (base64_encode url rest))))
  end%N.

(** [buf.toString('base64url')] and [buf.toString('base64')]. *)
Definition Buffer_toString_base64url (buf : Buffer) : string :=
  base64_encode true (map Byte.to_N buf).

Definition Buffer_toString_base64 (buf : Buffer) : string :=
  base64_encode false (map Byte.to_N buf).

(** [base64urlEncode] of [@sd-jwt/utils]: unpadded URL-safe base64 of the
    UTF-8 bytes of the string. *)
Definition base64urlEncode (src : string) : string :=
  Buffer_toString_base64url (list_byte_of_string src).

(** ** Exceptions, promises and the method monad *)

(** [new Error(message)]. *)
Record Error : Type := mkError { message : string }.

Inductive outcome (A : Type) : Type :=
| Return (a : A)
| Throw (e : Error).
Arguments Return {A} a.
Arguments Throw {A} e.

(** A settled promise, what an [async] method hands back. *)
Inductive Promise (A : Type) : Type :=
| Fulfilled (a : A)
| Rejected (e : Error).
Arguments Fulfilled {A} a.
Arguments Rejected {A} e.

(** A computation over a mutable state [St] that returns or throws; the state
    it leaves behind is there in both cases. *)
Definition M (St A : Type) : Type := St -> outcome A * St.

Definition ret {St A} (a : A) : M St A := fun st => (Return a, st).

Definition throw {St A} (e : Error) : M St A := fun st => (Throw e, st).

Definition bind {St A B} (m : M St A) (k : A -> M St B) : M St B :=
  fun st =>
    match m st with
    | (Return a, st') => k a st'
    | (Throw e, st') => (Throw e, st')
    end.

Notation "x <- m ;; k" := (bind m (fun x => k))
  (at level 61, m at next level, right associativity).
Notation "m ;;; k" := (bind m (fun _ => k))
  (at level 61, right associativity).

(** The body of an [async] function: a throw becomes the rejection of the
    promise returned. *)
Definition async {St A} (body : M St A) : M St (Promise A) :=
  fun st =>
    match body st with
    | (Return a, st') => (Return (Fulfilled a), st')
    | (Throw e, st') => (Return (Rejected e), st')
    end.

(** [await p] (and [return p] in an [async] body). *)
Definition await {St A} (p : Promise A) : M St A :=
  match p with
  | Fulfilled a => ret a
  | Rejected e => throw e
  end.

(** ** The crypto primitive and the other collaborators *)

(** Node's [KeyObject]: an opaque handle. *)
Inductive KeyObject : Type := KeyHandle (id : N).

(** Node's [X509Certificate], of which the code reads [raw] only. *)
Record X509Certificate : Type := { raw : Buffer }.

(** One use of the signature primitive:
    [createSign(algorithm).update(data).sign({ key, padding, dsaEncoding })].
    [padding] and [dsaEncoding] are [None] when the options object has no
    such property. *)
Module SignCall.
Record t : Type := {
  algorithm : value;
  data : string;
  key : KeyObject;
  padding : option Z;
  dsaEncoding : option string
}.
End SignCall.

(** The calls made into the signature primitive so far, oldest first. *)
Definition Trace : Type := list SignCall.t.

Module RSAOptions.
Record t : Type := { hash : string; padding : Z }.
End RSAOptions.

Module ECDSAOptions.
Record t : Type := { hash : string; namedCurve : string }.
End ECDSAOptions.

Module EdDSAOptions.
Record t : Type := { curves : list string }.
End EdDSAOptions.

(** Modelled from the spec: the [ALGORITHMS] table of [./constant], which is
    not among the sources.  Its keys are the identifiers of the dispatch table
    (section 4.3); the shape of each entry is the option type the handler
    it is passed to declares.  The entries themselves stay a parameter. *)
Record AlgorithmsTable : Type := {
  RS256 : RSAOptions.t;
  RS384 : RSAOptions.t;
  RS512 : RSAOptions.t;
  PS256 : RSAOptions.t;
  PS384 : RSAOptions.t;
  PS512 : RSAOptions.t;
  ES256 : ECDSAOptions.t;
  ES384 : ECDSAOptions.t;
  ES512 : ECDSAOptions.t;
  EdDSA : EdDSAOptions.t
}.

(** Modelled from the spec: the identifiers of the AlgorithmCatalog, the
    key set of the missing [ALGORITHMS] table. *)
Definition AlgorithmCatalog : list string :=
  ["RS256"; "RS384"; "RS512"; "PS256"; "PS384"; "PS512";
   "ES256"; "ES384"; "ES512"; "EdDSA"].

(** [DisclosureFrame<T>] of [@sd-jwt/types], passed through untouched. *)
Definition DisclosureFrame : Type := value.

Module GeneralJWS.
Record Signature : Type := {
  protected : string;
  signature : string;
  header : option object
}.
Record t : Type := {
  payload : value;
  signatures : list Signature
}.
End GeneralJWS.

(** What [createSignature] hands to the SD-JWT engine: the constructor
    configuration of [SDJwtGeneralJSONInstance] and the arguments of [issue]
    with its single [sigs] entry. *)
Record IssueRequest : Type := {
  hashAlg : string;
  signAlg : value;
  issue_payload : object;
  issue_disclosureFrame : option DisclosureFrame;
  sig_alg : value;
  sig_kid : string;
  sig_header : object
}.

(** The external collaborators.  [createHash a d] is
    [createHash(a).update(d).digest()]; [signer_sign c] is the outcome of the
    primitive on the call [c]; [issue r signer] is
    [(await instance.issue(...)).toJson()], an engine that reaches the
    primitive through the [signer] callback only and leaves the header
    object it is handed as it is. *)
Record Collaborators : Type := {
  createHash : string -> Buffer -> Buffer;
  signer_sign : SignCall.t -> outcome Buffer;
  ALGORITHMS : AlgorithmsTable;
  issue : IssueRequest -> (string -> M Trace string) -> M Trace GeneralJWS.t
}.

(** ** [class JWTSigner] *)

Section JWTSigner.
Variable E : Collaborators.

(** Run the primitive and record the call. *)
Definition createSign_sign (c : SignCall.t) : M Trace Buffer :=
  fun calls => (signer_sign E c, (calls ++ [c])%list).

Definition createRSASignature (signingInput : string) (privateKey : KeyObject)
    (options : RSAOptions.t) : M Trace string :=
  signature <- createSign_sign
    {| SignCall.algorithm := VStr (RSAOptions.hash options);
       SignCall.data := signingInput;
       SignCall.key := privateKey;
       SignCall.padding := Some (RSAOptions.padding options);
       SignCall.dsaEncoding := None |} ;;
  ret (Buffer_toString_base64url signature).

Definition createECDSASignature (signingInput : string) (privateKey : KeyObject)
    (options : ECDSAOptions.t) : M Trace string :=
  signature <- createSign_sign
    {| SignCall.algorithm := VStr (ECDSAOptions.hash options);
       SignCall.data := signingInput;
       SignCall.key := privateKey;
       SignCall.padding := None;
       SignCall.dsaEncoding := Some "ieee-p1363" |} ;;
  ret (Buffer_toString_base64url signature).

(** [options.curves[0]] is [undefined] on an empty array. *)
Definition createEdDSASignature (signingInput : string) (privateKey : KeyObject)
    (options : EdDSAOptions.t) : M Trace string :=
  signature <- createSign_sign
    {| SignCall.algorithm :=
         match EdDSAOptions.curves options with
         | c :: _ => VStr c
         | [] => VUndefined
         end;
       SignCall.data := signingInput;
       SignCall.key := privateKey;
       SignCall.padding := None;
       SignCall.dsaEncoding := None |} ;;
  ret (Buffer_toString_base64url signature).

(** The [switch] compares [alg] with each label by [===], in order;
    [ALGORITHMS[alg]] is the entry of the label that matched. *)
Definition createSignature (alg : value) (signingInput : string)
    (privateKey : KeyObject) : M Trace string :=
  let T := ALGORITHMS E in
  if strict_eq_str alg "RS256" then createRSASignature signingInput privateKey (RS256 T)
  else if strict_eq_str alg "RS384" then createRSASignature signingInput privateKey (RS384 T)
  else if strict_eq_str alg "RS512" then createRSASignature signingInput privateKey (RS512 T)
  else if strict_eq_str alg "PS256" then createRSASignature signingInput privateKey (PS256 T)
  else if strict_eq_str alg "PS384" then createRSASignature signingInput privateKey (PS384 T)
  else if strict_eq_str alg "PS512" then createRSASignature signingInput privateKey (PS512 T)
  else if strict_eq_str alg "ES256" then createECDSASignature signingInput privateKey (ES256 T)
  else if strict_eq_str alg "ES384" then createECDSASignature signingInput privateKey (ES384 T)
  else if strict_eq_str alg "ES512" then createECDSASignature signingInput privateKey (ES512 T)
  else if strict_eq_str alg "EdDSA" then createEdDSASignature signingInput privateKey (EdDSA T)
  else throw (mkError ("Unsupported algorithm: " ++ js_to_string alg)).

Definition JWTSigner_sign (alg : value) (signingInput : string)
    (privateKey : KeyObject) : M Trace string :=
  signature <- createSignature alg signingInput privateKey ;;
  ret signature.

End JWTSigner.

(** ** [class Sign] *)

(** The fields of an instance.  [payload] is [None] when the constructor got
    no payload, [serialized] is [None] while it is [undefined]. *)
Record Sign : Type := {
  serialized : option GeneralJWS.t;
  protectedHeader : object;
  disclosureFrame : option DisclosureFrame;
  payload : option object
}.

(** What a method call runs on: the instance and the trace of the primitive. *)
Record World : Type := {
  this : Sign;
  calls : Trace
}.

(** [new Sign(payload)]. *)
Definition new_Sign (payload : option object) : World :=
  {| this := {| serialized := None;
                protectedHeader := [];
                disclosureFrame := None;
                payload := payload |};
     calls := [] |}.

(** A [JWTSigner] computation, run from a method: it sees the trace only. *)
Definition lift {A} (m : M Trace A) : M World A :=
  fun w =>
    let (r, calls') := m (calls w) in
    (r, {| this := this w; calls := calls' |}).

Definition get_this : M World Sign := fun w => (Return (this w), w).

(** [this.protectedHeader = h]. *)
Definition put_protectedHeader (h : object) : M World unit :=
  fun w =>
    (Return tt,
     {| this := {| serialized := serialized (this w);
                   protectedHeader := h;
                   disclosureFrame := disclosureFrame (this w);
                   payload := payload (this w) |};
        calls := calls w |}).

(** [this.protectedHeader[k] = v]. *)
Definition assign_header (k : string) (v : value) : M World unit :=
  s <- get_this ;;
  put_protectedHeader (obj_set k v (protectedHeader s)).

Definition put_disclosureFrame (f : DisclosureFrame) : M World unit :=
  fun w =>
    (Return tt,
     {| this := {| serialized := serialized (this w);
                   protectedHeader := protectedHeader (this w);
                   disclosureFrame := Some f;
                   payload := payload (this w) |};
        calls := calls w |}).

(** [this.serialized = j]; only the revision in the example does this. *)
Definition put_serialized (j : GeneralJWS.t) : M World unit :=
  fun w =>
    (Return tt,
     {| this := {| serialized := Some j;
                   protectedHeader := protectedHeader (this w);
                   disclosureFrame := disclosureFrame (this w);
                   payload := payload (this w) |};
        calls := calls w |}).

Definition dquote : string := String (ascii_of_N 34) EmptyString.

(** [new Error('alg must be set and not "none"')]. *)
Definition alg_error : Error :=
  mkError ("alg must be set and not " ++ dquote ++ "none" ++ dquote).

Definition HttpHeaders : string := "http://uri.etsi.org/19182/HttpHeaders".

(** [!h.alg || h.alg === 'none']. *)
Definition alg_missing_or_none (h : object) : bool :=
  negb (truthy (obj_get "alg" h)) || strict_eq_str (obj_get "alg" h) "none".

Section Setters.
Variable E : Collaborators.

Definition setProtectedHeader (header : object) : M World Sign :=
  if alg_missing_or_none header then throw alg_error
  else put_protectedHeader header ;;; get_this.

Definition setDisclosureFrame (frame : DisclosureFrame) : M World Sign :=
  put_disclosureFrame frame ;;; get_this.

Definition setB64 (b64 : bool) : M World Sign :=
  (if b64 then assign_header "b64" VUndefined
   else assign_header "b64" (VBool false)) ;;;
  get_this.

(** [Date_now] is what [Date.now()] reads during the call. *)
Definition setIssuedAt (sec : option Z) (Date_now : Z) : M World Sign :=
  assign_header "iat"
    (VNum (match sec with Some n => n | None => Date_now / 1000 end)) ;;;
  get_this.

Definition setSignedAt (sec : option Z) (Date_now : Z) : M World Sign :=
  assign_header "signedAt"
    (VNum (match sec with Some n => n | None => Date_now / 1000 end)) ;;;
  get_this.

Definition setSigD (sigd : object) : M World Sign :=
  assign_header "sigD" (VObj sigd) ;;;
  (if strict_eq_str (obj_get "mId" sigd) HttpHeaders
   then setB64 false ;;; ret tt
   else ret tt) ;;;
  get_this.

Definition setJti (jti : string) : M World Sign :=
  assign_header "jti" (VStr jti) ;;; get_this.

Definition setX5u (uri : string) : M World Sign :=
  assign_header "x5u" (VStr uri) ;;; get_this.

Definition setX5c (certs : list X509Certificate) : M World Sign :=
  assign_header "x5c"
    (VArr (map (fun cert => VStr (Buffer_toString_base64 (raw cert))) certs)) ;;;
  get_this.

Definition setX5tS256 (cert : X509Certificate) : M World Sign :=
  assign_header "x5t#256"
    (VStr (Buffer_toString_base64url (createHash E "sha-256" (raw cert)))) ;;;
  get_this.

(** The digest pair [{ digAlg: 'sha-512', digVal: ... }] of a certificate. *)
Definition digest_pair (cert : X509Certificate) : value :=
  VObj [("digAlg", VStr "sha-512");
        ("digVal",
         VStr (Buffer_toString_base64url (createHash E "sha-512" (raw cert))))].

Definition setX5tSo (cert : X509Certificate) : M World Sign :=
  assign_header "x5t#o" (digest_pair cert) ;;; get_this.

Definition x5ts_error : Error :=
  mkError "at least 2 certificates are required, use setX5tSo instead".

Definition setX5ts (certs : list X509Certificate) : M World Sign :=
  if (length certs <? 2)%nat then throw x5ts_error
  else assign_header "x5t#s" (VArr (map digest_pair certs)) ;;; get_this.

Definition setCty (cty : string) : M World Sign :=
  assign_header "cty" (VStr cty) ;;; get_this.

(** Only [packages/jades/src/sign.ts] has [setKid]. *)
Definition setKid (kid : string) : M World Sign :=
  assign_header "kid" (VStr kid) ;;; get_this.

Definition not_signed_error : Error := mkError "Not signed yet".

Definition toJSON : M World GeneralJWS.t :=
  s <- get_this ;;
  match serialized s with
  | None => throw not_signed_error
  | Some j => ret j
  end.

End Setters.

(** *** [sign] of [packages/jades/src/sign.ts] *)

Module Jades.
Section Sign.
Variable E : Collaborators.

(** The signature is computed into a local and dropped; [serialized] is
    [readonly] and never assigned. *)
Definition sign (key : KeyObject) : M World (Promise Sign) :=
  async (
    s <- get_this ;;
    if alg_missing_or_none (protectedHeader s) then throw alg_error
    else
      (match serialized s with
       | Some _ => ret tt (* TODO: implement *)
       | None => ret tt
       end) ;;;
      (match payload s with
       | None =>
           let encodedProtectedHeader :=
             base64urlEncode (JSON_stringify_obj (protectedHeader s)) in
           let encodedPayload := EmptyString in
           let protectedData :=
             encodedProtectedHeader ++ "." ++ encodedPayload in
           signature <- lift (JWTSigner_sign E
                                (obj_get "alg" (protectedHeader s))
                                protectedData key) ;;
           ret tt
       | Some _ => ret tt
       end) ;;;
      get_this).

End Sign.
End Jades.

(** *** [sign] of the revision in [examples/sd-jwt-vcdm-example] *)

Module Example.
Section Sign.
Variable E : Collaborators.

Definition appendSignature (key : KeyObject) (kid : string)
    : M World (Promise Sign) :=
  async get_this.

(** The [signer] callback handed to the engine. *)
Definition signer (header : object) (key : KeyObject) (data : string)
    : M Trace string :=
  if negb (truthy (obj_get "alg" header))
  then throw (mkError "alg must be set when signing")
  else JWTSigner_sign E (obj_get "alg" header) data key.

Definition createSignature (key : KeyObject) (kid : string)
    : M World (Promise Sign) :=
  async (
    s <- get_this ;;
    if alg_missing_or_none (protectedHeader s) then throw alg_error
    else
      match payload s with
      | None =>
          (* { ...this.protectedHeader, kid } *)
          let encodedProtectedHeader :=
            base64urlEncode
              (JSON_stringify_obj
                 (obj_set "kid" (VStr kid) (protectedHeader s))) in
          let encodedPayload := EmptyString in
          let protectedData :=
            encodedProtectedHeader ++ "." ++ encodedPayload in
          signature <- lift (JWTSigner_sign E
                               (obj_get "alg" (protectedHeader s))
                               protectedData key) ;;
          put_serialized
            {| GeneralJWS.payload := VStr EmptyString;
               GeneralJWS.signatures :=
                 [{| GeneralJWS.protected := encodedProtectedHeader;
                     GeneralJWS.signature := signature;
                     GeneralJWS.header := None |}] |} ;;;
          get_this
      | Some p =>
          generalJSON <- lift (issue E
            {| hashAlg := "sha-256";
               signAlg := obj_get "alg" (protectedHeader s);
               issue_payload := p;
               issue_disclosureFrame := disclosureFrame s;
               sig_alg := obj_get "alg" (protectedHeader s);
               sig_kid := kid;
               sig_header := protectedHeader s |}
            (signer (protectedHeader s) key)) ;;
          put_serialized generalJSON ;;;
          get_this
      end).

Definition sign (key : KeyObject) (kid : string) : M World (Promise Sign) :=
  async (
    s <- get_this ;;
    if alg_missing_or_none (protectedHeader s) then throw alg_error
    else
      match serialized s with
      | Some _ => p <- appendSignature key kid ;; await p
      | None => p <- createSignature key kid ;; await p
      end).

End Sign.
End Example.

(** ** Test doubles for the collaborators *)

(** A primitive that signs every call with the same four bytes, a digest that
    is the identity, a table with one entry per identifier and an engine that
    calls the signer once on the fixed text [payload]. *)
Definition fake : Collaborators :=
  {| createHash := fun _ d => d;
     signer_sign := fun _ => Return [x01; xfe; x7f; x80]%byte;
     ALGORITHMS :=
       {| RS256 := {| RSAOptions.hash := "sha256"; RSAOptions.padding := 1 |};
          RS384 := {| RSAOptions.hash := "sha384"; RSAOptions.padding := 1 |};
          RS512 := {| RSAOptions.hash := "sha512"; RSAOptions.padding := 1 |};
          PS256 := {| RSAOptions.hash := "sha256"; RSAOptions.padding := 6 |};
          PS384 := {| RSAOptions.hash := "sha384"; RSAOptions.padding := 6 |};
          PS512 := {| RSAOptions.hash := "sha512"; RSAOptions.padding := 6 |};
          ES256 := {| ECDSAOptions.hash := "sha256";
                      ECDSAOptions.namedCurve := "P-256" |};
          ES384 := {| ECDSAOptions.hash := "sha384";
                      ECDSAOptions.namedCurve := "P-384" |};
          ES512 := {| ECDSAOptions.hash := "sha512";
                      ECDSAOptions.namedCurve := "P-521" |};
          EdDSA := {| EdDSAOptions.curves := ["ed25519"; "ed448"] |} |};
     issue := fun r signer =>
       sig <- signer "payload" ;;
       ret {| GeneralJWS.payload := VObj (issue_payload r);
              GeneralJWS.signatures :=
                [{| GeneralJWS.protected :=
                      base64urlEncode (JSON_stringify_obj (sig_header r));
                    GeneralJWS.signature := sig;
                    GeneralJWS.header :=
                      Some [("kid", VStr (sig_kid r))] |}] |} |}.

(** A primitive that always fails, as on a key of the wrong type. *)
Definition failing : Collaborators :=
  {| createHash := createHash fake;
     signer_sign := fun _ => Throw (mkError "error:operation not supported");
     ALGORITHMS := ALGORITHMS fake;
     issue := issue fake |}.

Definition sample_key : KeyObject := KeyHandle 7.

(** [w] after the call [m]. *)
Definition after {A} (m : M World A) (w : World) : World := snd (m w).

(** The setter calls of the fluent interface, as data. *)
Inductive setter : Type :=
| SetProtectedHeader (header : object)
| SetDisclosureFrame (frame : DisclosureFrame)
| SetB64 (b64 : bool)
| SetIssuedAt (sec : option Z) (Date_now : Z)
| SetSignedAt (sec : option Z) (Date_now : Z)
| SetSigD (sigd : object)
| SetJti (jti : string)
| SetX5u (uri : string)
| SetX5c (certs : list X509Certificate)
| SetX5tS256 (cert : X509Certificate)
| SetX5tSo (cert : X509Certificate)
| SetX5ts (certs : list X509Certificate)
| SetCty (cty : string)
| SetKid (kid : string).

Definition call_setter (E : Collaborators) (c : setter) : M World Sign :=
  match c with
  | SetProtectedHeader header => setProtectedHeader header
  | SetDisclosureFrame frame => setDisclosureFrame frame
  | SetB64 b64 => setB64 b64
  | SetIssuedAt sec now => setIssuedAt sec now
  | SetSignedAt sec now => setSignedAt sec now
  | SetSigD sigd => setSigD sigd
  | SetJti jti => setJti jti
  | SetX5u uri => setX5u uri
  | SetX5c certs => setX5c certs
  | SetX5tS256 cert => setX5tS256 E cert
  | SetX5tSo cert => setX5tSo E cert
  | SetX5ts certs => setX5ts E certs
  | SetCty cty => setCty cty
  | SetKid kid => setKid kid
  end.

(** A chain of setter calls; a call that throws is caught and the chain goes
    on from the state it left. *)
Fixpoint call_setters (E : Collaborators) (cs : list setter) (w : World)
    : World :=
  match cs with
  | [] => w
  | c :: cs' => call_setters E cs' (after (call_setter E c) w)
  end.

(** The two revisions of [Sign.sign]. *)
Inductive revision : Type := Package | ExampleRevision.

Definition sign_of (E : Collaborators) (r : revision) (key : KeyObject)
    (kid : string) : M World (Promise Sign) :=
  match r with
  | Package => Jades.sign E key
  | ExampleRevision => Example.sign E key kid
  end.

(** The states of an instance on which no [sign] has been fulfilled: a new
    instance, then setter calls, accessor calls and rejected [sign] calls. *)
Inductive not_signed_yet (E : Collaborators) (r : revision) : World -> Prop :=
| nsy_new : forall payload, not_signed_yet E r (new_Sign payload)
| nsy_setter : forall c w,
    not_signed_yet E r w -> not_signed_yet E r (after (call_setter E c) w)
| nsy_toJSON : forall w,
    not_signed_yet E r w -> not_signed_yet E r (after toJSON w)
| nsy_sign_rejected : forall key kid w e,
    not_signed_yet E r w ->
    fst (sign_of E r key kid w) = Return (Rejected e) ->
    not_signed_yet E r (after (sign_of E r key kid) w).

(** The signing input of detached mode in the words of the specification:
    [base64url(JSON(header)) + "."]. *)
Definition spec_detached_signing_input (header : object) : string :=
  base64urlEncode (JSON_stringify_obj header) ++ ".".

(** ** Definitions the statements use *)

(** The characters of the URL-safe base64 alphabet. *)
Definition is_base64url_char (c : ascii) : bool :=
  let n := N_of_ascii c in
  ((65 <=? n) && (n <=? 90) || (97 <=? n) && (n <=? 122) ||
   (48 <=? n) && (n <=? 57) || (n =? 45) || (n =? 95))%N.

Fixpoint string_forall (p : ascii -> bool) (s : string) : bool :=
  match s with
  | EmptyString => true
  | String c s' => p c && string_forall p s'
  end.

(** What a handler does with the call [c] it builds: run the primitive, record
    the call, encode the signature. *)
Definition primitive_result (E : Collaborators) (c : SignCall.t)
    (calls : Trace) : outcome string * Trace :=
  (match signer_sign E c with
   | Return sig => Return (Buffer_toString_base64url sig)
   | Throw e => Throw e
   end, (calls ++ [c])%list).

Definition rsa_call (input : string) (key : KeyObject) (o : RSAOptions.t)
    : SignCall.t :=
  {| SignCall.algorithm := VStr (RSAOptions.hash o);
     SignCall.data := input;
     SignCall.key := key;
     SignCall.padding := Some (RSAOptions.padding o);
     SignCall.dsaEncoding := None |}.

Definition ecdsa_call (input : string) (key : KeyObject) (o : ECDSAOptions.t)
    : SignCall.t :=
  {| SignCall.algorithm := VStr (ECDSAOptions.hash o);
     SignCall.data := input;
     SignCall.key := key;
     SignCall.padding := None;
     SignCall.dsaEncoding := Some "ieee-p1363" |}.

Definition eddsa_call (input : string) (key : KeyObject) (o : EdDSAOptions.t)
    : SignCall.t :=
  {| SignCall.algorithm :=
       match EdDSAOptions.curves o with
       | c :: _ => VStr c
       | [] => VUndefined
       end;
     SignCall.data := input;
     SignCall.key := key;
     SignCall.padding := None;
     SignCall.dsaEncoding := None |}.

(** A [sigD] descriptor and a certificate to evaluate on. *)
Definition sample_sigD (mId : string) : object :=
  [("mId", VStr mId);
   ("pars", VArr [VStr "(request-target)"; VStr "digest"]);
   ("hash", VStr "S256")].

Definition sample_cert (b : byte) : X509Certificate :=
  {| raw := [x30; x82; b]%byte |}.

(** ** Objects *)

Lemma obj_get_set_same k v o : obj_get k (obj_set k v o) = v.
Proof.
  induction o as [|[k' v'] o IH]; simpl.
  - now rewrite String.eqb_refl.
  - destruct (String.eqb k k') eqn:Hk; simpl.
    + now rewrite String.eqb_refl.
    + now rewrite Hk.
Qed.

Lemma obj_get_set_other k k' v o :
  k' <> k -> obj_get k' (obj_set k v o) = obj_get k' o.
Proof.
  intros Hne. induction o as [|[k0 v0] o IH]; simpl.
  - apply String.eqb_neq in Hne. now rewrite Hne.
  - destruct (String.eqb k k0) eqn:Hk; simpl.
    + apply String.eqb_eq in Hk. subst k0.
      apply String.eqb_neq in Hne. now rewrite Hne.
    + now rewrite IH.
Qed.

Lemma obj_has_set_same k v o : obj_has k (obj_set k v o) = true.
Proof.
  induction o as [|[k' v'] o IH]; simpl.
  - now rewrite String.eqb_refl.
  - destruct (String.eqb k k') eqn:Hk; simpl.
    + now rewrite String.eqb_refl.
    + now rewrite Hk.
Qed.

Lemma obj_has_set_other k k' v o :
  k' <> k -> obj_has k' (obj_set k v o) = obj_has k' o.
Proof.
  intros Hne. induction o as [|[k0 v0] o IH]; simpl.
  - apply String.eqb_neq in Hne. now rewrite Hne.
  - destruct (String.eqb k k0) eqn:Hk; simpl.
    + apply String.eqb_eq in Hk. subst k0.
      apply String.eqb_neq in Hne. now rewrite Hne.
    + now rewrite IH.
Qed.

(** A property assigned [undefined] is serialised like a deleted one. *)
Lemma json_members_set_undefined k o :
  json_members (obj_set k VUndefined o) = json_members (obj_delete k o).
Proof.
  induction o as [|[k' v'] o IH]; simpl.
  - reflexivity.
  - destruct (String.eqb k k'); simpl.
    + reflexivity.
    + now rewrite IH.
Qed.

Lemma JSON_stringify_VObj o :
  JSON_stringify (VObj o) = Some (JSON_stringify_obj o).
Proof.
  unfold JSON_stringify_obj. cbn [JSON_stringify].
  match goal with
  | |- Some (_ ++ join _ ?m ++ _) = _ =>
      assert (Hm : m = json_members o); [|now rewrite Hm]
  end.
  induction o as [|[k v] o IH]; cbn [json_members].
  - reflexivity.
  - destruct (JSON_stringify v); now rewrite IH.
Qed.

(** ** Setters *)

Ltac run_method :=
  unfold after, setProtectedHeader, setDisclosureFrame, setB64, setIssuedAt,
    setSignedAt, setSigD, setJti, setX5u, setX5c, setX5tS256, setX5tSo,
    setX5ts, setCty, setKid, toJSON, assign_header, put_protectedHeader,
    put_disclosureFrame, put_serialized, get_this, bind, ret, throw;
  simpl.

(** [setB64] assigns the [b64] property and nothing else. *)
Lemma setB64_header b w :
  protectedHeader (this (after (setB64 b) w)) =
  obj_set "b64" (if b then VUndefined else VBool false)
    (protectedHeader (this w)).
Proof. destruct b; reflexivity. Qed.

Lemma setSigD_header sigd w :
  protectedHeader (this (after (setSigD sigd) w)) =
  let h := obj_set "sigD" (VObj sigd) (protectedHeader (this w)) in
  if strict_eq_str (obj_get "mId" sigd) HttpHeaders
  then obj_set "b64" (VBool false) h else h.
Proof.
  run_method. destruct (strict_eq_str (obj_get "mId" sigd) HttpHeaders);
    reflexivity.
Qed.

Lemma strict_eq_str_true v lit :
  strict_eq_str v lit = true <-> v = VStr lit.
Proof.
  destruct v; simpl; try (split; [discriminate | intros H; discriminate H]).
  rewrite String.eqb_eq. split; [intros -> | intros [= ->]]; reflexivity.
Qed.

(** C1: after [setSigD] with a descriptor whose [mId] is the HTTP-headers
    mechanism URI the header has [b64] set to [false], whatever the state
    before (so also after an earlier [setB64(true)]); with any other [mId]
    the [b64] property is as it was, in value and in presence. *)
Theorem setSigD_forces_b64 (sigd : object) (w : World) :
  let before := protectedHeader (this w) in
  let after_ := protectedHeader (this (after (setSigD sigd) w)) in
  (obj_get "mId" sigd = VStr HttpHeaders ->
     obj_get "b64" after_ = VBool false /\
     forall b, obj_get "b64"
       (protectedHeader (this (after (setSigD sigd) (after (setB64 b) w))))
       = VBool false) /\
  (obj_get "mId" sigd <> VStr HttpHeaders ->
     obj_get "b64" after_ = obj_get "b64" before /\
     obj_has "b64" after_ = obj_has "b64" before).
Proof.
  cbv zeta. split.
  - intros Hm. apply strict_eq_str_true in Hm.
    split; [|intros b]; rewrite setSigD_header; cbv zeta; rewrite Hm;
      apply obj_get_set_same.
  - intros Hm. rewrite setSigD_header. cbv zeta.
    destruct (strict_eq_str (obj_get "mId" sigd) HttpHeaders) eqn:Hs.
    + apply strict_eq_str_true in Hs. contradiction.
    + split; [apply obj_get_set_other | apply obj_has_set_other];
        discriminate.
Qed.

Lemma setSigD_forces_b64_witness :
  let w := after (setB64 true) (new_Sign None) in
  obj_get "b64"
    (protectedHeader (this (after (setSigD (sample_sigD HttpHeaders)) w)))
  = VBool false /\
  obj_has "b64"
    (protectedHeader
       (this (after (setSigD (sample_sigD "http://uri.etsi.org/19182/ObjectIdByURI")) w)))
  = obj_has "b64" (protectedHeader (this w)).
Proof.
  cbv zeta. split.
  - apply (setSigD_forces_b64 (sample_sigD HttpHeaders)
             (after (setB64 true) (new_Sign None))).
    reflexivity.
  - apply (setSigD_forces_b64
             (sample_sigD "http://uri.etsi.org/19182/ObjectIdByURI")
             (after (setB64 true) (new_Sign None))).
    discriminate.
Defined.

(** Reading a key the object does not have gives [undefined]. *)
Lemma obj_get_absent k o : obj_has k o = false -> obj_get k o = VUndefined.
Proof.
  induction o as [|[k' v'] o IH]; simpl; [reflexivity|].
  destruct (String.eqb k k'); [discriminate | exact IH].
Qed.

(** C4, as the code has it: [setB64(true)] assigns [undefined] to [b64].
    The key stays an own property of the mapping, its value is [undefined]
    (never [true]), which is what reading an absent key gives, and
    [JSON.stringify] writes the header exactly as if the key had been
    deleted.  [setB64(false)] sets the property to [false].  Both leave every
    other property alone, from every prior state. *)
Theorem setB64_assigns (w : World) :
  let h := protectedHeader (this w) in
  let ht := protectedHeader (this (after (setB64 true) w)) in
  let hf := protectedHeader (this (after (setB64 false) w)) in
  (obj_has "b64" ht = true /\
   obj_get "b64" ht = VUndefined /\
   JSON_stringify_obj ht = JSON_stringify_obj (obj_delete "b64" h)) /\
  (obj_has "b64" hf = true /\ obj_get "b64" hf = VBool false) /\
  (forall b k, k <> "b64" ->
     obj_get k (protectedHeader (this (after (setB64 b) w))) = obj_get k h).
Proof.
  cbv zeta. rewrite !setB64_header. repeat split.
  - apply obj_has_set_same.
  - apply obj_get_set_same.
  - unfold JSON_stringify_obj. now rewrite json_members_set_undefined.
  - apply obj_has_set_same.
  - apply obj_get_set_same.
  - intros b k Hk. rewrite setB64_header. now apply obj_get_set_other.
Qed.

Lemma setB64_assigns_witness :
  obj_get "alg"
    (protectedHeader
       (this (after (setB64 true)
                (after (setProtectedHeader [("alg", VStr "ES256")])
                   (new_Sign None)))))
  = VStr "ES256".
Proof.
  refine (proj2 (proj2 (setB64_assigns
            (after (setProtectedHeader [("alg", VStr "ES256")])
               (new_Sign None)))) true "alg" _).
  discriminate.
Defined.

(** The claim C4 as the specification words it fails: after [setB64(true)]
    on a new instance the key [b64] is present, and the mapping is not the
    one with the key removed. *)
Lemma setB64_true_keeps_key :
  let ht := protectedHeader (this (after (setB64 true) (new_Sign None))) in
  obj_has "b64" ht = true /\
  ht = [("b64", VUndefined)] /\
  ht <> obj_delete "b64" (protectedHeader (this (new_Sign None))).
Proof. cbv zeta. repeat split. discriminate. Qed.

(** ** [setProtectedHeader] *)

Lemma setProtectedHeader_run header w :
  setProtectedHeader header w =
  if alg_missing_or_none header then (Throw alg_error, w)
  else (Return (this (after (put_protectedHeader header) w)),
        after (put_protectedHeader header) w).
Proof.
  unfold setProtectedHeader. destruct (alg_missing_or_none header); reflexivity.
Qed.

(** C10: a [setProtectedHeader] call that passes the [alg] check replaces the
    whole header mapping by its argument, after every chain of setter calls:
    the header is then exactly the argument, every key reads as in the
    argument (what earlier setters stored, a forced [b64: false] included, is
    gone unless the argument has it), and the other fields of the instance
    are untouched. *)
Theorem setProtectedHeader_replaces (E : Collaborators) (prior : list setter)
    (payload0 : option object) (header : object) :
  alg_missing_or_none header = false ->
  let w := call_setters E prior (new_Sign payload0) in
  let w' := after (setProtectedHeader header) w in
  fst (setProtectedHeader header w) = Return (this w') /\
  protectedHeader (this w') = header /\
  (forall k, obj_get k (protectedHeader (this w')) = obj_get k header) /\
  (forall k, obj_has k (protectedHeader (this w')) = obj_has k header) /\
  serialized (this w') = serialized (this w) /\
  disclosureFrame (this w') = disclosureFrame (this w) /\
  payload (this w') = payload (this w) /\
  calls w' = calls w.
Proof.
  intros Halg. cbv zeta. unfold after.
  rewrite setProtectedHeader_run, Halg. simpl. repeat split.
Qed.

Lemma setProtectedHeader_replaces_witness :
  let prior :=
    [SetProtectedHeader [("alg", VStr "RS256")];
     SetSigD (sample_sigD HttpHeaders);
     SetIssuedAt None 1700000000123;
     SetX5c [sample_cert x01; sample_cert x02]] in
  obj_get "b64"
    (protectedHeader (this (call_setters fake prior (new_Sign None))))
  = VBool false /\
  protectedHeader
    (this (after (setProtectedHeader [("alg", VStr "ES256")])
             (call_setters fake prior (new_Sign None))))
  = [("alg", VStr "ES256")].
Proof.
  cbv zeta. split; [reflexivity|].
  refine (proj1 (proj2 (setProtectedHeader_replaces fake _ None
                          [("alg", VStr "ES256")] _))).
  reflexivity.
Defined.

(** ** Failures of the [alg] check *)

Lemma alg_missing_or_none_spec h :
  alg_missing_or_none h = true <->
  truthy (obj_get "alg" h) = false \/ obj_get "alg" h = VStr "none".
Proof.
  unfold alg_missing_or_none. rewrite orb_true_iff, negb_true_iff.
  now rewrite strict_eq_str_true.
Qed.

Ltac run_sign :=
  unfold sign_of, Jades.sign, Example.sign, Example.createSignature,
    Example.appendSignature, async, await, lift, JWTSigner_sign, after,
    toJSON, put_serialized, get_this, bind, ret, throw;
  simpl.

(** [sign] rejected by the [alg] check: the promise is rejected with the
    [alg] error and nothing has happened, in both revisions. *)
Lemma sign_alg_check E r key kid w :
  alg_missing_or_none (protectedHeader (this w)) = true ->
  sign_of E r key kid w = (Return (Rejected alg_error), w).
Proof.
  intros H. destruct r; run_sign; now rewrite H.
Qed.

(** C5, as the code has it: [setProtectedHeader] with an [alg] that is
    ["none"] (or missing, or falsy) throws the [alg] error at once and leaves
    the instance as it was; [sign] on an instance whose [alg] is unset or
    ["none"] fails with the same error at the check, before any call into
    the signature primitive and without touching the instance, but [sign] is
    [async]: the call itself returns and the failure is the rejection of the
    promise it returns. *)
Theorem alg_none_or_unset_fails (E : Collaborators) (w : World) :
  (forall header,
     truthy (obj_get "alg" header) = false \/
     obj_get "alg" header = VStr "none" ->
     setProtectedHeader header w = (Throw alg_error, w)) /\
  (truthy (obj_get "alg" (protectedHeader (this w))) = false \/
   obj_get "alg" (protectedHeader (this w)) = VStr "none" ->
   forall key kid,
     Jades.sign E key w = (Return (Rejected alg_error), w) /\
     Example.sign E key kid w = (Return (Rejected alg_error), w)).
Proof.
  split.
  - intros header H. apply alg_missing_or_none_spec in H.
    now rewrite setProtectedHeader_run, H.
  - intros H key kid. apply alg_missing_or_none_spec in H. split.
    + exact (sign_alg_check E Package key kid w H).
    + exact (sign_alg_check E ExampleRevision key kid w H).
Qed.

Lemma alg_none_or_unset_fails_witness :
  setProtectedHeader [("alg", VStr "none"); ("typ", VStr "jose+json")]
    (new_Sign None)
  = (Throw alg_error, new_Sign None) /\
  Jades.sign fake sample_key (new_Sign None)
  = (Return (Rejected alg_error), new_Sign None) /\
  Example.sign fake sample_key "key-1" (new_Sign None)
  = (Return (Rejected alg_error), new_Sign None).
Proof.
  split.
  - apply (proj1 (alg_none_or_unset_fails fake (new_Sign None))).
    right. reflexivity.
  - apply (proj2 (alg_none_or_unset_fails fake (new_Sign None))).
    left. reflexivity.
Defined.

(** The claim C5 as the specification words it fails for [sign]: on a new
    instance (no [alg]) the call does not throw, it returns a promise, which
    is rejected. *)
Lemma sign_failure_is_a_rejection :
  ~ (exists e, fst (Jades.sign fake sample_key (new_Sign None)) = Throw e) /\
  ~ (exists e,
       fst (Example.sign fake sample_key "key-1" (new_Sign None)) = Throw e) /\
  fst (Jades.sign fake sample_key (new_Sign None))
  = Return (Rejected alg_error).
Proof.
  repeat split; try (intros [e H]; discriminate H).
Qed.

(** ** [setX5ts] *)

(** C6: [setX5ts] with fewer than 2 certificates throws the
    "at least 2 certificates" error and leaves the instance, its header
    included, as it was; with [n >= 2] certificates it returns and the header
    has under [x5t#s] an array of exactly [n] digest pairs, the [i]-th one
    being [{ digAlg: 'sha-512', digVal: base64url(SHA-512(raw of the i-th
    certificate)) }], every other key being as before. *)
Theorem setX5ts_checks_and_stores (E : Collaborators)
    (certs : list X509Certificate) (w : World) :
  (length certs < 2 -> setX5ts E certs w = (Throw x5ts_error, w)) /\
  (2 <= length certs ->
   let w' := after (setX5ts E certs) w in
   fst (setX5ts E certs w) = Return (this w') /\
   exists pairs,
     obj_get "x5t#s" (protectedHeader (this w')) = VArr pairs /\
     length pairs = length certs /\
     (forall i cert, nth_error certs i = Some cert ->
        nth_error pairs i =
        Some (VObj [("digAlg", VStr "sha-512");
                    ("digVal",
                     VStr (Buffer_toString_base64url
                             (createHash E "sha-512" (raw cert))))])) /\
     (forall k, k <> "x5t#s" ->
        obj_get k (protectedHeader (this w')) =
        obj_get k (protectedHeader (this w)))).
Proof.
  split.
  - intros Hlt. unfold setX5ts.
    destruct (Nat.ltb_spec (length certs) 2) as [_|Hge]; [reflexivity | lia].
  - intros Hge. cbv zeta. unfold after, setX5ts.
    destruct (Nat.ltb_spec (length certs) 2) as [Hlt|_]; [lia|].
    run_method. split; [reflexivity|].
    exists (map (digest_pair E) certs). repeat split.
    + apply obj_get_set_same.
    + apply length_map.
    + intros i cert Hi. now rewrite nth_error_map, Hi.
    + intros k Hk. now apply obj_get_set_other.
Qed.

Lemma setX5ts_checks_and_stores_witness :
  setX5ts fake [sample_cert x01] (new_Sign None)
  = (Throw x5ts_error, new_Sign None) /\
  exists pairs,
    obj_get "x5t#s"
      (protectedHeader
         (this (after (setX5ts fake [sample_cert x01; sample_cert x02])
                  (new_Sign None))))
    = VArr pairs /\
    length pairs = 2.
Proof.
  split.
  - apply (proj1 (setX5ts_checks_and_stores fake [sample_cert x01]
                    (new_Sign None))).
    simpl. lia.
  - destruct (proj2 (setX5ts_checks_and_stores fake
                       [sample_cert x01; sample_cert x02] (new_Sign None)))
      as [_ [pairs [Hget [Hlen _]]]].
    + simpl. lia.
    + exists pairs. split; [exact Hget | exact Hlen].
Defined.

(** ** Base64url output *)

Section ListInd3.
Variable A : Type.
Variable P : list A -> Prop.
Hypothesis P0 : P [].
Hypothesis P1 : forall a, P [a].
Hypothesis P2 : forall a b, P [a; b].
Hypothesis P3 : forall a b c rest, P rest -> P (a :: b :: c :: rest).

(** Induction that follows the recursion of [base64_encode]. *)
Lemma list_ind3 (l : list A) : P l.
Proof.
  revert l. fix IH 1. intros [|a [|b [|c rest]]].
  - exact P0.
  - exact (P1 a).
  - exact (P2 a b).
  - exact (P3 a b c rest (IH rest)).
Qed.
End ListInd3.

Lemma base64_char_url_low :
  forallb (fun i => is_base64url_char (base64_char true (N.of_nat i)))
    (seq 0 64) = true.
Proof. vm_compute. reflexivity. Qed.

(** Every 6-bit group, and in fact every number, is written as a character of
    the URL-safe alphabet. *)
Lemma base64_char_url i : is_base64url_char (base64_char true i) = true.
Proof.
  destruct (N.ltb_spec i 64) as [Hlt|Hge].
  - pose proof (proj1 (forallb_forall _ _) base64_char_url_low (N.to_nat i))
      as H.
    cbv beta in H. rewrite N2Nat.id in H. apply H.
    apply in_seq. lia.
  - unfold base64_char.
    destruct (N.ltb_spec i 26); [lia|].
    destruct (N.ltb_spec i 52); [lia|].
    destruct (N.ltb_spec i 62); [lia|].
    destruct (N.eqb_spec i 62); [lia|].
    reflexivity.
Qed.

Lemma base64_encode_url_alphabet bs :
  string_forall is_base64url_char (base64_encode true bs) = true.
Proof.
  induction bs as [|a|a b|a b c rest IH] using list_ind3;
    cbn [base64_encode string_forall];
    rewrite ?base64_char_url, ?IH; reflexivity.
Qed.

Lemma string_forall_In p s c :
  string_forall p s = true -> In c (list_ascii_of_string s) -> p c = true.
Proof.
  induction s as [|c' s IH]; simpl; [intros _ []|].
  rewrite andb_true_iff. intros [Hc Hs] [<-|Hin]; auto.
Qed.

(** [buf.toString('base64url')] has characters of the URL-safe alphabet only,
    so no [=] padding. *)
Lemma Buffer_toString_base64url_unpadded buf :
  string_forall is_base64url_char (Buffer_toString_base64url buf) = true /\
  ~ In "="%char (list_ascii_of_string (Buffer_toString_base64url buf)).
Proof.
  pose proof (base64_encode_url_alphabet (map Byte.to_N buf)) as H.
  split; [exact H|].
  intros Hin. apply (string_forall_In _ _ _ H) in Hin. discriminate Hin.
Qed.

(** ** [JWTSigner] *)

Lemma createRSASignature_run E input key o calls :
  createRSASignature E input key o calls =
  primitive_result E (rsa_call input key o) calls.
Proof.
  unfold createRSASignature, primitive_result, bind, createSign_sign, rsa_call.
  destruct (signer_sign E _); reflexivity.
Qed.

Lemma createECDSASignature_run E input key o calls :
  createECDSASignature E input key o calls =
  primitive_result E (ecdsa_call input key o) calls.
Proof.
  unfold createECDSASignature, primitive_result, bind, createSign_sign,
    ecdsa_call.
  destruct (signer_sign E _); reflexivity.
Qed.

Lemma createEdDSASignature_run E input key o calls :
  createEdDSASignature E input key o calls =
  primitive_result E (eddsa_call input key o) calls.
Proof.
  unfold createEdDSASignature, primitive_result, bind, createSign_sign,
    eddsa_call.
  destruct (signer_sign E _); reflexivity.
Qed.

Lemma JWTSigner_sign_run E alg input key calls :
  JWTSigner_sign E alg input key calls = createSignature E alg input key calls.
Proof.
  unfold JWTSigner_sign, bind, ret.
  destruct (createSignature E alg input key calls) as [[s|e] calls'];
    reflexivity.
Qed.

Lemma strict_eq_str_false v lit :
  v <> VStr lit -> strict_eq_str v lit = false.
Proof.
  intros H. destruct (strict_eq_str v lit) eqn:Hs; [|reflexivity].
  apply strict_eq_str_true in Hs. contradiction.
Qed.

(** One label of the [switch]: either it matches, and the handler's call is
    the witness, or the next label is tried. *)
Ltac switch_case alg lit :=
  let H := fresh "Hcase" in
  destruct (strict_eq_str alg lit) eqn:H;
  [ apply strict_eq_str_true in H; left; exists lit;
    rewrite ?createRSASignature_run, ?createECDSASignature_run,
      ?createEdDSASignature_run;
    eexists; repeat split;
    [ exact H | simpl; tauto
    | intros Hin;
      first [ reflexivity
            | exfalso; simpl in Hin; intuition discriminate ] .. ]
  | ].

(** The outcome of [createSignature], by cases: one call of the primitive
    built by the handler of the family of a catalogued identifier, or the
    "Unsupported algorithm" error and no call at all. *)
Lemma createSignature_cases E alg input key calls :
  (exists a c,
     alg = VStr a /\ In a AlgorithmCatalog /\
     createSignature E alg input key calls = primitive_result E c calls /\
     SignCall.data c = input /\ SignCall.key c = key /\
     (In a ["ES256"; "ES384"; "ES512"] ->
      SignCall.dsaEncoding c = Some "ieee-p1363")) \/
  ((forall a, In a AlgorithmCatalog -> alg <> VStr a) /\
   createSignature E alg input key calls =
   (Throw (mkError ("Unsupported algorithm: " ++ js_to_string alg)), calls)).
Proof.
  unfold createSignature. cbv zeta.
  switch_case alg "RS256". switch_case alg "RS384". switch_case alg "RS512".
  switch_case alg "PS256". switch_case alg "PS384". switch_case alg "PS512".
  switch_case alg "ES256". switch_case alg "ES384". switch_case alg "ES512".
  switch_case alg "EdDSA".
  right. split; [|reflexivity].
  intros a Ha ->. simpl in Ha.
  repeat match goal with
  | H : _ \/ _ |- _ => destruct H as [H|H]
  | H : _ = a |- _ => subst a
  end; try contradiction; simpl in *; congruence.
Qed.

(** The three handlers never make the same call: the RSA one passes a
    [padding], the ECDSA one a [dsaEncoding], the EdDSA one neither. *)
Lemma handler_calls_differ input key o1 o2 o3 :
  rsa_call input key o1 <> ecdsa_call input key o2 /\
  rsa_call input key o1 <> eddsa_call input key o3 /\
  ecdsa_call input key o2 <> eddsa_call input key o3.
Proof. repeat split; discriminate. Qed.

(** C7: [JWTSigner.sign] throws "Unsupported algorithm" (and makes no call
    of the primitive) for every value that is not an identifier of the
    AlgorithmCatalog, and for each catalogued identifier it runs exactly the
    handler of its family on the entry of that identifier: the RSA handler
    for RS256, RS384, RS512, PS256, PS384, PS512, the ECDSA handler for
    ES256, ES384, ES512 and the EdDSA handler for EdDSA; the calls the three
    handlers make are pairwise different. *)
Theorem JWTSigner_sign_dispatch (E : Collaborators) (input : string)
    (key : KeyObject) (calls : Trace) :
  let T := ALGORITHMS E in
  let sign alg := JWTSigner_sign E alg input key calls in
  (forall alg,
     (forall a, In a AlgorithmCatalog -> alg <> VStr a) ->
     sign alg =
     (Throw (mkError ("Unsupported algorithm: " ++ js_to_string alg)), calls))
  /\
  (sign (VStr "RS256") = createRSASignature E input key (RS256 T) calls /\
   sign (VStr "RS384") = createRSASignature E input key (RS384 T) calls /\
   sign (VStr "RS512") = createRSASignature E input key (RS512 T) calls /\
   sign (VStr "PS256") = createRSASignature E input key (PS256 T) calls /\
   sign (VStr "PS384") = createRSASignature E input key (PS384 T) calls /\
   sign (VStr "PS512") = createRSASignature E input key (PS512 T) calls /\
   sign (VStr "ES256") = createECDSASignature E input key (ES256 T) calls /\
   sign (VStr "ES384") = createECDSASignature E input key (ES384 T) calls /\
   sign (VStr "ES512") = createECDSASignature E input key (ES512 T) calls /\
   sign (VStr "EdDSA") = createEdDSASignature E input key (EdDSA T) calls)
  /\
  (forall o1 o2 o3,
     createRSASignature E input key o1 calls
       <> createECDSASignature E input key o2 calls /\
     createRSASignature E input key o1 calls
       <> createEdDSASignature E input key o3 calls /\
     createECDSASignature E input key o2 calls
       <> createEdDSASignature E input key o3 calls).
Proof.
  cbv zeta. split; [|split].
  - intros alg Hnot. rewrite JWTSigner_sign_run.
    destruct (createSignature_cases E alg input key calls)
      as [(a & c & -> & Hin & _) | [_ H]]; [|exact H].
    now destruct (Hnot a Hin).
  - repeat split; rewrite JWTSigner_sign_run; reflexivity.
  - intros o1 o2 o3.
    rewrite createRSASignature_run, createECDSASignature_run,
      createEdDSASignature_run.
    destruct (handler_calls_differ input key o1 o2 o3) as (H12 & H13 & H23).
    unfold primitive_result.
    repeat split; intros [= _ Heq]; apply app_inj_tail in Heq;
      destruct Heq as [_ Heq]; contradiction.
Qed.

Lemma JWTSigner_sign_dispatch_witness :
  JWTSigner_sign fake (VStr "HS256") "e30." sample_key []
  = (Throw (mkError "Unsupported algorithm: HS256"), []) /\
  JWTSigner_sign fake (VNum 5) "e30." sample_key []
  = (Throw (mkError "Unsupported algorithm: 5"), []).
Proof.
  split.
  - apply (proj1 (JWTSigner_sign_dispatch fake "e30." sample_key [])
             (VStr "HS256")).
    intros a Ha [= <-]. simpl in Ha. intuition discriminate.
  - apply (proj1 (JWTSigner_sign_dispatch fake "e30." sample_key [])
             (VNum 5)).
    intros a _. discriminate.
Defined.

(** C8: for ES256, ES384 and ES512 the one call [JWTSigner.sign] makes into
    the signature primitive carries [dsaEncoding: 'ieee-p1363'] (and the
    signing input and the key it was given); and whenever [JWTSigner.sign]
    returns, for any algorithm, what it returns is the base64url text of the
    bytes the primitive produced on the one call made, written in the
    URL-safe alphabet without [=] padding. *)
Theorem signature_encoding (E : Collaborators) (input : string)
    (key : KeyObject) (calls : Trace) :
  (forall a, In a ["ES256"; "ES384"; "ES512"] ->
   exists c,
     JWTSigner_sign E (VStr a) input key calls = primitive_result E c calls /\
     SignCall.dsaEncoding c = Some "ieee-p1363" /\
     SignCall.data c = input /\
     SignCall.key c = key) /\
  (forall alg s calls',
   JWTSigner_sign E alg input key calls = (Return s, calls') ->
   exists c sig,
     calls' = (calls ++ [c])%list /\
     signer_sign E c = Return sig /\
     s = Buffer_toString_base64url sig /\
     string_forall is_base64url_char s = true /\
     ~ In "="%char (list_ascii_of_string s)).
Proof.
  split.
  - intros a Hin. rewrite JWTSigner_sign_run.
    destruct (createSignature_cases E (VStr a) input key calls)
      as [(a' & c & [= <-] & _ & Hrun & Hdata & Hkey & Henc) | [Hnot _]].
    + exists c. auto.
    + exfalso. apply (Hnot a); [|reflexivity].
      simpl in Hin |- *. tauto.
  - intros alg s calls' Hrun. rewrite JWTSigner_sign_run in Hrun.
    destruct (createSignature_cases E alg input key calls)
      as [(a & c & _ & _ & Hc & _) | [_ Hthrow]].
    + rewrite Hc in Hrun. unfold primitive_result in Hrun.
      destruct (signer_sign E c) as [sig|e] eqn:Hsig; [|discriminate].
      injection Hrun as <- <-. exists c, sig.
      split; [reflexivity|]. split; [assumption|]. split; [reflexivity|].
      apply Buffer_toString_base64url_unpadded.
    + rewrite Hthrow in Hrun. discriminate.
Qed.

Lemma signature_encoding_witness :
  (exists c,
     JWTSigner_sign fake (VStr "ES384") "e30." sample_key []
     = primitive_result fake c [] /\
     SignCall.dsaEncoding c = Some "ieee-p1363") /\
  (exists c sig,
     signer_sign fake c = Return sig /\
     "Af5_gA" = Buffer_toString_base64url sig).
Proof.
  split.
  - destruct (proj1 (signature_encoding fake "e30." sample_key []) "ES384")
      as (c & Hrun & Henc & _).
    + simpl. tauto.
    + exists c. split; assumption.
  - destruct (proj2 (signature_encoding fake "e30." sample_key [])
                (VStr "PS256") "Af5_gA"
                [rsa_call "e30." sample_key (PS256 (ALGORITHMS fake))])
      as (c & sig & _ & Hsig & Henc & _).
    + reflexivity.
    + exists c, sig. split; assumption.
Defined.

(** ** [sign] and [toJSON] *)

(** No setter touches [serialized]. *)
Lemma call_setter_serialized E c w :
  serialized (this (after (call_setter E c) w)) = serialized (this w).
Proof.
  destruct c; simpl; run_method; try reflexivity.
  - (* setProtectedHeader *)
    destruct (alg_missing_or_none header); reflexivity.
  - (* setB64 *)
    destruct b64; reflexivity.
  - (* setSigD *)
    destruct (strict_eq_str (obj_get "mId" sigd) HttpHeaders); reflexivity.
  - (* setX5ts *)
    destruct (length certs <? 2)%nat; reflexivity.
Qed.

(** [toJSON] changes nothing. *)
Lemma toJSON_state w : after toJSON w = w.
Proof.
  run_method. destruct (serialized (this w)); reflexivity.
Qed.

(** [sign] of the package never assigns a field of the instance. *)
Lemma Jades_sign_this E key w : this (after (Jades.sign E key) w) = this w.
Proof.
  run_sign.
  destruct (alg_missing_or_none (protectedHeader (this w))); [reflexivity|].
  destruct (serialized (this w)); simpl;
    (destruct (payload (this w)); [reflexivity|]);
  destruct (createSignature E _ _ key (calls w)) as [[sig|e] calls'];
    reflexivity.
Qed.

(** The detached branch of [createSignature] in the example's revision. *)
Lemma Example_sign_detached E key kid w :
  alg_missing_or_none (protectedHeader (this w)) = false ->
  serialized (this w) = None ->
  payload (this w) = None ->
  let encoded :=
    base64urlEncode
      (JSON_stringify_obj (obj_set "kid" (VStr kid) (protectedHeader (this w))))
  in
  Example.sign E key kid w =
  match JWTSigner_sign E (obj_get "alg" (protectedHeader (this w)))
          (encoded ++ ".") key (calls w) with
  | (Return sig, calls') =>
      let s' :=
        {| serialized :=
             Some {| GeneralJWS.payload := VStr EmptyString;
                     GeneralJWS.signatures :=
                       [{| GeneralJWS.protected := encoded;
                           GeneralJWS.signature := sig;
                           GeneralJWS.header := None |}] |};
           protectedHeader := protectedHeader (this w);
           disclosureFrame := disclosureFrame (this w);
           payload := payload (this w) |} in
      (Return (Fulfilled s'), {| this := s'; calls := calls' |})
  | (Throw e, calls') =>
      (Return (Rejected e), {| this := this w; calls := calls' |})
  end.
Proof.
  intros Halg Hser Hpay. cbv zeta. rewrite JWTSigner_sign_run.
  run_sign. rewrite Halg, Hser. simpl. rewrite Halg, Hpay.
  destruct (createSignature E _ _ key (calls w)) as [[sig|e] calls'];
    simpl; rewrite ?Hpay; reflexivity.
Qed.

(** The issuance branch of [createSignature] in the example's revision. *)
Lemma Example_sign_issuance E key kid w p :
  alg_missing_or_none (protectedHeader (this w)) = false ->
  serialized (this w) = None ->
  payload (this w) = Some p ->
  Example.sign E key kid w =
  match issue E
          {| hashAlg := "sha-256";
             signAlg := obj_get "alg" (protectedHeader (this w));
             issue_payload := p;
             issue_disclosureFrame := disclosureFrame (this w);
             sig_alg := obj_get "alg" (protectedHeader (this w));
             sig_kid := kid;
             sig_header := protectedHeader (this w) |}
          (Example.signer E (protectedHeader (this w)) key) (calls w) with
  | (Return j, calls') =>
      let s' :=
        {| serialized := Some j;
           protectedHeader := protectedHeader (this w);
           disclosureFrame := disclosureFrame (this w);
           payload := payload (this w) |} in
      (Return (Fulfilled s'), {| this := s'; calls := calls' |})
  | (Throw e, calls') =>
      (Return (Rejected e), {| this := this w; calls := calls' |})
  end.
Proof.
  intros Halg Hser Hpay. run_sign. rewrite Halg, Hser. simpl.
  rewrite Halg, Hpay.
  destruct (issue E _ _ (calls w)) as [[j|e] calls'];
    simpl; rewrite ?Hpay; reflexivity.
Qed.

(** On an instance already signed, [sign] of the example's revision goes to
    [appendSignature], which does nothing. *)
Lemma Example_sign_append E key kid w j :
  alg_missing_or_none (protectedHeader (this w)) = false ->
  serialized (this w) = Some j ->
  Example.sign E key kid w = (Return (Fulfilled (this w)), w).
Proof.
  intros Halg Hser. run_sign. now rewrite Halg, Hser.
Qed.

(** A rejected [sign] leaves [serialized] as it was. *)
Lemma sign_rejected_serialized E r key kid w e :
  fst (sign_of E r key kid w) = Return (Rejected e) ->
  serialized (this (after (sign_of E r key kid) w)) = serialized (this w).
Proof.
  destruct r; cbn [sign_of].
  - intros _. now rewrite Jades_sign_this.
  - destruct (alg_missing_or_none (protectedHeader (this w))) eqn:Halg.
    + intros _. unfold after.
      pose proof (sign_alg_check E ExampleRevision key kid w Halg) as Hs.
      cbn [sign_of] in Hs. now rewrite Hs.
    + destruct (serialized (this w)) as [j|] eqn:Hser.
      * unfold after. now rewrite (Example_sign_append E key kid w j).
      * destruct (payload (this w)) as [p|] eqn:Hpay; unfold after.
        -- rewrite (Example_sign_issuance E key kid w p Halg Hser Hpay).
           destruct (issue E _ _ (calls w)) as [[j|e'] calls'];
             [discriminate | now intros _].
        -- rewrite (Example_sign_detached E key kid w Halg Hser Hpay).
           cbv zeta.
           destruct (JWTSigner_sign E _ _ key (calls w)) as [[sig|e'] calls'];
             [discriminate | now intros _].
Qed.

Lemma not_signed_yet_serialized E r w :
  not_signed_yet E r w -> serialized (this w) = None.
Proof.
  induction 1 as [payload0 | c w _ IH | w _ IH | key kid w e _ IH Hrej].
  - reflexivity.
  - now rewrite call_setter_serialized.
  - now rewrite toJSON_state.
  - now rewrite (sign_rejected_serialized E r key kid w e Hrej).
Qed.

(** C9: on an instance on which no [sign] has been fulfilled, reached from a
    new instance by any setter calls, accessor calls and rejected [sign]
    calls, in either revision, [toJSON] throws "Not signed yet" and leaves
    the state as it was. *)
Theorem toJSON_before_sign (E : Collaborators) (r : revision) (w : World) :
  not_signed_yet E r w -> toJSON w = (Throw not_signed_error, w).
Proof.
  intros H. apply not_signed_yet_serialized in H.
  run_method. now rewrite H.
Qed.

Lemma toJSON_before_sign_witness :
  let w1 :=
    call_setters failing
      [SetSigD (sample_sigD HttpHeaders); SetJti "id-1";
       SetProtectedHeader [("alg", VStr "ES256")]]
      (new_Sign None) in
  let w2 := after (Example.sign failing sample_key "key-1") w1 in
  calls w2 <> [] /\ toJSON w2 = (Throw not_signed_error, w2).
Proof.
  cbv zeta. split; [discriminate|].
  apply (toJSON_before_sign failing ExampleRevision).
  apply (nsy_sign_rejected failing ExampleRevision sample_key "key-1" _
           (mkError "error:operation not supported")); [|reflexivity].
  cbn [call_setters]. repeat apply nsy_setter. apply nsy_new.
Defined.

(** In the example's revision a fulfilled [sign] leaves the artifact stored,
    and [toJSON] then returns it. *)
Lemma Example_sign_stores E key kid w s :
  fst (Example.sign E key kid w) = Return (Fulfilled s) ->
  let w' := after (Example.sign E key kid) w in
  s = this w' /\
  exists j, serialized (this w') = Some j /\ toJSON w' = (Return j, w').
Proof.
  cbv zeta. unfold after.
  destruct (alg_missing_or_none (protectedHeader (this w))) eqn:Halg.
  { pose proof (sign_alg_check E ExampleRevision key kid w Halg) as Hs.
    cbn [sign_of] in Hs. rewrite Hs. discriminate. }
  destruct (serialized (this w)) as [j|] eqn:Hser.
  { rewrite (Example_sign_append E key kid w j Halg Hser). simpl.
    intros [= <-]. split; [reflexivity|]. exists j. split; [exact Hser|].
    run_method. now rewrite Hser. }
  destruct (payload (this w)) as [p|] eqn:Hpay.
  - rewrite (Example_sign_issuance E key kid w p Halg Hser Hpay).
    destruct (issue E _ _ (calls w)) as [[j|e] calls']; [|discriminate].
    simpl. intros [= <-]. split; [reflexivity|]. now exists j.
  - rewrite (Example_sign_detached E key kid w Halg Hser Hpay). cbv zeta.
    destruct (JWTSigner_sign E _ _ key (calls w)) as [[sig|e] calls'];
      [|discriminate].
    simpl. intros [= <-]. split; [reflexivity|]. eexists. now split.
Qed.

(** C2 on [packages/jades/src/sign.ts]: [sign] never assigns [serialized]
    (nor any other field), so [toJSON] after it answers as before it; on a
    detached instance with [alg] RS256 the promise of [sign] is fulfilled,
    the primitive has been called once, and [toJSON] still throws
    "Not signed yet".  The example's revision does store the artifact
    ([Example_sign_stores]). *)
Theorem Jades_sign_then_toJSON_fails :
  (forall E key w,
     this (after (Jades.sign E key) w) = this w /\
     fst (toJSON (after (Jades.sign E key) w)) = fst (toJSON w)) /\
  let w0 :=
    after (setProtectedHeader [("alg", VStr "RS256")]) (new_Sign None) in
  let w1 := after (Jades.sign fake sample_key) w0 in
  fst (Jades.sign fake sample_key w0) = Return (Fulfilled (this w0)) /\
  length (calls w1) = 1 /\
  toJSON w1 = (Throw not_signed_error, w1).
Proof.
  split.
  - intros E key w. pose proof (Jades_sign_this E key w) as H.
    split; [exact H|]. unfold toJSON, bind, get_this. simpl. rewrite H.
    destruct (serialized (this w)); reflexivity.
  - cbv zeta. repeat split.
Qed.

(** Every call [JWTSigner.sign] makes into the primitive carries the signing
    input it was given; it makes exactly one when the algorithm is
    catalogued. *)
Lemma JWTSigner_sign_trace E alg input key calls :
  exists new,
    snd (JWTSigner_sign E alg input key calls) = (calls ++ new)%list /\
    Forall (fun c => SignCall.data c = input) new /\
    (forall a, alg = VStr a -> In a AlgorithmCatalog -> length new = 1).
Proof.
  rewrite JWTSigner_sign_run.
  destruct (createSignature_cases E alg input key calls)
    as [(a & c & _ & _ & Hrun & Hdata & _) | [Hnot Hthrow]].
  - exists [c]. rewrite Hrun. repeat split. now constructor.
  - exists []. rewrite Hthrow. simpl. rewrite app_nil_r. repeat split.
    + constructor.
    + intros a -> Hin. now destruct (Hnot a Hin).
Qed.

(** C3, as the code has it: on an instance without payload whose [alg]
    passes the check, every signing input handed to the signature primitive
    is [base64url(JSON(H)) + "."], the final segment empty, and there is
    exactly one such call when the algorithm is catalogued.  [H] is the
    protected header in [packages/jades/src/sign.ts]; in the revision whose
    [sign] takes a [kid] it is the protected header with its [kid] property
    set to that argument, and there a fulfilled [sign] has stored a General
    JWS whose payload is the empty string and whose one signature entry has
    [base64url(JSON(H))] as [protected]. *)
Theorem detached_signing_input (E : Collaborators) (key : KeyObject)
    (kid : string) (w : World) :
  payload (this w) = None ->
  alg_missing_or_none (protectedHeader (this w)) = false ->
  let h := protectedHeader (this w) in
  let hk := obj_set "kid" (VStr kid) h in
  (exists new,
     calls (after (Jades.sign E key) w) = (calls w ++ new)%list /\
     Forall (fun c => SignCall.data c = spec_detached_signing_input h) new /\
     (forall a, obj_get "alg" h = VStr a -> In a AlgorithmCatalog ->
        length new = 1)) /\
  (serialized (this w) = None ->
   exists new,
     calls (after (Example.sign E key kid) w) = (calls w ++ new)%list /\
     Forall (fun c => SignCall.data c = spec_detached_signing_input hk) new /\
     (forall a, obj_get "alg" h = VStr a -> In a AlgorithmCatalog ->
        length new = 1) /\
     (forall s, fst (Example.sign E key kid w) = Return (Fulfilled s) ->
        exists sig,
          serialized s =
          Some {| GeneralJWS.payload := VStr EmptyString;
                  GeneralJWS.signatures :=
                    [{| GeneralJWS.protected :=
                          base64urlEncode (JSON_stringify_obj hk);
                        GeneralJWS.signature := sig;
                        GeneralJWS.header := None |}] |})).
Proof.
  intros Hpay Halg. cbv zeta. split.
  - destruct (JWTSigner_sign_trace E
                (obj_get "alg" (protectedHeader (this w)))
                (spec_detached_signing_input (protectedHeader (this w)))
                key (calls w)) as (new & Hcalls & Hdata & Hone).
    exists new. split; [|split; assumption].
    rewrite <- Hcalls. unfold spec_detached_signing_input.
    run_sign. rewrite Halg.
    destruct (serialized (this w)); simpl; rewrite Hpay; simpl;
      destruct (createSignature E _ _ key (calls w)) as [[sig|e] calls'];
      reflexivity.
  - intros Hser.
    pose proof (Example_sign_detached E key kid w Halg Hser Hpay) as Hrun.
    cbv zeta in Hrun.
    destruct (JWTSigner_sign_trace E
                (obj_get "alg" (protectedHeader (this w)))
                (spec_detached_signing_input
                   (obj_set "kid" (VStr kid) (protectedHeader (this w))))
                key (calls w)) as (new & Hcalls & Hdata & Hone).
    unfold spec_detached_signing_input in Hcalls.
    exists new. unfold after. rewrite Hrun.
    destruct (JWTSigner_sign E _ _ key (calls w)) as [[sig|e] calls'];
      simpl in *; subst calls'; repeat split; try assumption.
    + intros s [= <-]. now exists sig.
    + intros s Hs. discriminate Hs.
Qed.

Lemma detached_signing_input_witness :
  let w0 :=
    call_setters fake
      [SetProtectedHeader [("alg", VStr "ES256")];
       SetSigD (sample_sigD HttpHeaders)]
      (new_Sign None) in
  (exists new,
     calls (after (Jades.sign fake sample_key) w0) = (calls w0 ++ new)%list /\
     Forall (fun c => SignCall.data c =
                      spec_detached_signing_input (protectedHeader (this w0)))
       new /\
     length new = 1) /\
  (exists sig,
     serialized (this (after (Example.sign fake sample_key "key-1") w0)) =
     Some {| GeneralJWS.payload := VStr EmptyString;
             GeneralJWS.signatures :=
               [{| GeneralJWS.protected :=
                     base64urlEncode
                       (JSON_stringify_obj
                          (obj_set "kid" (VStr "key-1")
                             (protectedHeader (this w0))));
                   GeneralJWS.signature := sig;
                   GeneralJWS.header := None |}] |}).
Proof.
  cbv zeta.
  destruct (detached_signing_input fake sample_key "key-1"
              (call_setters fake
                 [SetProtectedHeader [("alg", VStr "ES256")];
                  SetSigD (sample_sigD HttpHeaders)]
                 (new_Sign None))
              eq_refl eq_refl)
    as [(new & Hcalls & Hdata & Hone) Hexample].
  split.
  - exists new. split; [exact Hcalls|]. split; [exact Hdata|].
    apply (Hone "ES256"); [reflexivity | simpl; tauto].
  - destruct (Hexample eq_refl) as (_ & _ & _ & _ & Hstored).
    apply (Hstored _ eq_refl).
Defined.

(** The claim C3 as the specification words it fails in the revision whose
    [sign] takes a [kid]: with the header [{ alg: 'RS256' }] and the kid
    [key-1] the signing input is the encoding of
    [{ alg: 'RS256', kid: 'key-1' }], not of the protected header. *)
Lemma detached_input_carries_kid :
  let w0 :=
    after (setProtectedHeader [("alg", VStr "RS256")]) (new_Sign None) in
  exists c,
    calls (after (Example.sign fake sample_key "key-1") w0) = [c] /\
    SignCall.data c = "eyJhbGciOiJSUzI1NiIsImtpZCI6ImtleS0xIn0." /\
    spec_detached_signing_input (protectedHeader (this w0))
    = "eyJhbGciOiJSUzI1NiJ9." /\
    SignCall.data c
    <> spec_detached_signing_input (protectedHeader (this w0)).
Proof.
  cbv zeta. eexists. split; [reflexivity|]. repeat split. discriminate.
Qed.

(** The same calls on the example's revision: the promise is fulfilled and
    [toJSON] returns the stored artifact, whose payload is the empty
    string. *)
Lemma Example_sign_then_toJSON :
  let w0 :=
    after (setProtectedHeader [("alg", VStr "RS256")]) (new_Sign None) in
  let w1 := after (Example.sign fake sample_key "key-1") w0 in
  toJSON w1 =
  (Return {| GeneralJWS.payload := VStr EmptyString;
             GeneralJWS.signatures :=
               [{| GeneralJWS.protected :=
                     "eyJhbGciOiJSUzI1NiIsImtpZCI6ImtleS0xIn0";
                   GeneralJWS.signature := "Af5_gA";
                   GeneralJWS.header := None |}] |}, w1).
Proof. reflexivity. Qed.

(** * Further properties of the builder *)

(** ** Assignments to the header *)

Lemma obj_set_twice k v1 v2 o :
  obj_set k v2 (obj_set k v1 o) = obj_set k v2 o.
Proof.
  induction o as [|[k' v'] o IH]; simpl.
  - now rewrite String.eqb_refl.
  - destruct (String.eqb k k') eqn:Hk; simpl.
    + now rewrite String.eqb_refl.
    + now rewrite Hk, IH.
Qed.


Lemma alg_missing_or_none_set k v h :
  k <> "alg" ->
  alg_missing_or_none (obj_set k v h) = alg_missing_or_none h.
Proof.
  intros Hk. unfold alg_missing_or_none.
  rewrite obj_get_set_other; [reflexivity|].
  intros Heq. apply Hk. now rewrite Heq.
Qed.

(** One setter call keeps a header that passes the [alg] check passing it. *)
Lemma call_setter_alg_valid E c w :
  alg_missing_or_none (protectedHeader (this w)) = false ->
  alg_missing_or_none (protectedHeader (this (after (call_setter E c) w)))
  = false.
Proof.
  intros Hw.
  destruct c; simpl; run_method;
    rewrite ?alg_missing_or_none_set by discriminate; try exact Hw.
  - (* setProtectedHeader *)
    destruct (alg_missing_or_none header) eqn:Hh; simpl; assumption.
  - (* setB64 *)
    destruct b64; simpl; rewrite alg_missing_or_none_set by discriminate;
      exact Hw.
  - (* setSigD *)
    destruct (strict_eq_str (obj_get "mId" sigd) HttpHeaders); simpl;
      rewrite ?alg_missing_or_none_set by discriminate; exact Hw.
  - (* setX5ts *)
    destruct (length certs <? 2)%nat; simpl;
      rewrite ?alg_missing_or_none_set by discriminate; exact Hw.
Qed.

(** X1: once the header passes the [alg] check (an [alg] that is truthy and
    not ["none"]), it passes it after every chain of setter calls, throwing
    ones and [setProtectedHeader] included: no setter brings the instance
    back to the state in which [sign] is rejected by the check. *)
Theorem setters_keep_alg_valid (E : Collaborators) (cs : list setter)
    (w : World) :
  alg_missing_or_none (protectedHeader (this w)) = false ->
  alg_missing_or_none (protectedHeader (this (call_setters E cs w))) = false.
Proof.
  revert w. induction cs as [|c cs IH]; intros w Hw; simpl.
  - exact Hw.
  - apply IH. now apply call_setter_alg_valid.
Qed.

Lemma setters_keep_alg_valid_witness :
  alg_missing_or_none
    (protectedHeader
       (this (call_setters fake
                [SetSigD (sample_sigD HttpHeaders);
                 SetProtectedHeader [("alg", VStr "none")];
                 SetX5ts [sample_cert x01];
                 SetKid "key-1"]
                (after (setProtectedHeader [("alg", VStr "PS256")])
                   (new_Sign None)))))
  = false.
Proof.
  apply (setters_keep_alg_valid fake _
           (after (setProtectedHeader [("alg", VStr "PS256")])
              (new_Sign None))).
  reflexivity.
Defined.



(** X3: a setter called twice is the setter called once with the last
    argument: the states are equal, the key keeps the place it had.  So for
    [setJti], [setX5u], [setCty], [setKid], [setIssuedAt], [setSignedAt],
    [setX5c], [setB64] and [setDisclosureFrame]. *)
Theorem setter_last_call_wins (w : World) :
  (forall a b, after (setJti b) (after (setJti a) w) = after (setJti b) w) /\
  (forall a b, after (setX5u b) (after (setX5u a) w) = after (setX5u b) w) /\
  (forall a b, after (setCty b) (after (setCty a) w) = after (setCty b) w) /\
  (forall a b, after (setKid b) (after (setKid a) w) = after (setKid b) w) /\
  (forall a na b nb,
     after (setIssuedAt b nb) (after (setIssuedAt a na) w)
     = after (setIssuedAt b nb) w) /\
  (forall a na b nb,
     after (setSignedAt b nb) (after (setSignedAt a na) w)
     = after (setSignedAt b nb) w) /\
  (forall a b, after (setX5c b) (after (setX5c a) w) = after (setX5c b) w) /\
  (forall a b, after (setB64 b) (after (setB64 a) w) = after (setB64 b) w) /\
  (forall a b,
     after (setDisclosureFrame b) (after (setDisclosureFrame a) w)
     = after (setDisclosureFrame b) w).
Proof.
  repeat split; intros; run_method; rewrite ?obj_set_twice; try reflexivity.
  destruct a, b; simpl; now rewrite obj_set_twice.
Qed.



(** X5: the coupling of [sigD] and [b64] is made by [setSigD] only, it is not
    kept afterwards: [setB64(true)] called after a [setSigD] with the
    HTTP-headers mechanism leaves that [sigD] in the header and puts [b64]
    back to [undefined], so the header is serialised without [b64]. *)
Theorem setB64_true_after_setSigD (sigd : object) (w : World) :
  obj_get "mId" sigd = VStr HttpHeaders ->
  let h := protectedHeader
             (this (after (setB64 true) (after (setSigD sigd) w))) in
  obj_get "sigD" h = VObj sigd /\
  obj_get "b64" h = VUndefined /\
  JSON_stringify_obj h =
  JSON_stringify_obj
    (obj_delete "b64" (obj_set "sigD" (VObj sigd) (protectedHeader (this w)))).
Proof.
  intros Hm. apply strict_eq_str_true in Hm. cbv zeta.
  rewrite setB64_header, setSigD_header. cbv zeta. rewrite Hm.
  rewrite obj_set_twice. repeat split.
  - rewrite obj_get_set_other by discriminate. apply obj_get_set_same.
  - apply obj_get_set_same.
  - unfold JSON_stringify_obj. now rewrite json_members_set_undefined.
Qed.

Lemma setB64_true_after_setSigD_witness :
  JSON_stringify_obj
    (protectedHeader
       (this (after (setB64 true)
                (after (setSigD [("mId", VStr HttpHeaders)])
                   (new_Sign None)))))
  = "{" ++ dquote ++ "sigD" ++ dquote ++ ":{" ++ dquote ++ "mId" ++ dquote
    ++ ":" ++ dquote ++ HttpHeaders ++ dquote ++ "}}".
Proof.
  rewrite (proj2 (proj2 (setB64_true_after_setSigD
                           [("mId", VStr HttpHeaders)] (new_Sign None)
                           eq_refl))).
  reflexivity.
Defined.

(** ** Certificates and timestamps *)

Lemma base64_encode_padded_length bs :
  String.length (base64_encode false bs) = 4 * ((length bs + 2) / 3).
Proof.
  induction bs as [|a|a b|a b c rest IH] using list_ind3;
    try reflexivity.
  cbn [base64_encode String.length length]. rewrite IH.
  replace (S (S (S (length rest))) + 2) with ((length rest + 2) + 1 * 3)
    by lia.
  rewrite Nat.div_add by discriminate. lia.
Qed.

(** X6: [setX5c] has no minimum: it returns for every list of certificates,
    the empty one included, and stores under [x5c] an array of the same
    length whose [i]-th element is the standard, padded base64 text of the
    [i]-th certificate's raw bytes, four characters for every three bytes
    begun; every other key is as before. *)
Theorem setX5c_stores_base64 (certs : list X509Certificate) (w : World) :
  let w' := after (setX5c certs) w in
  fst (setX5c certs w) = Return (this w') /\
  exists elems,
    obj_get "x5c" (protectedHeader (this w')) = VArr elems /\
    length elems = length certs /\
    (forall i cert, nth_error certs i = Some cert ->
       nth_error elems i = Some (VStr (Buffer_toString_base64 (raw cert))) /\
       String.length (Buffer_toString_base64 (raw cert))
       = 4 * ((length (raw cert) + 2) / 3)) /\
    (forall k, k <> "x5c" ->
       obj_get k (protectedHeader (this w')) =
       obj_get k (protectedHeader (this w))).
Proof.
  cbv zeta. run_method. split; [reflexivity|].
  eexists. split; [apply obj_get_set_same|]. split; [apply length_map|].
  split.
  - intros i cert Hi. rewrite nth_error_map, Hi. split; [reflexivity|].
    unfold Buffer_toString_base64.
    now rewrite base64_encode_padded_length, length_map.
  - intros k Hk. now apply obj_get_set_other.
Qed.

Lemma setX5c_stores_base64_witness :
  nth_error
    (match obj_get "x5c"
             (protectedHeader
                (this (after (setX5c [sample_cert x01; sample_cert x02])
                         (new_Sign None)))) with
     | VArr elems => elems
     | _ => []
     end) 1
  = Some (VStr "MIIC").
Proof.
  destruct (proj2 (setX5c_stores_base64 [sample_cert x01; sample_cert x02]
                     (new_Sign None)))
    as (elems & Hget & _ & Hnth & _).
  rewrite Hget.
  exact (proj1 (Hnth 1 (sample_cert x02) eq_refl)).
Defined.

(** X7: [setIssuedAt] and [setSignedAt] store the argument when there is
    one, zero included, and otherwise the whole seconds of the clock: the
    number [s] with [1000 * s <= Date.now() < 1000 * (s + 1)].  Each assigns
    its own key only. *)
Theorem timestamps_in_seconds (w : World) (Date_now : Z) :
  (forall sec,
     obj_get "iat"
       (protectedHeader (this (after (setIssuedAt (Some sec) Date_now) w)))
     = VNum sec /\
     obj_get "signedAt"
       (protectedHeader (this (after (setSignedAt (Some sec) Date_now) w)))
     = VNum sec) /\
  (exists s,
     (1000 * s <= Date_now < 1000 * (s + 1))%Z /\
     obj_get "iat"
       (protectedHeader (this (after (setIssuedAt None Date_now) w)))
     = VNum s /\
     obj_get "signedAt"
       (protectedHeader (this (after (setSignedAt None Date_now) w)))
     = VNum s) /\
  (forall sec k,
     (k <> "iat" ->
      obj_get k (protectedHeader (this (after (setIssuedAt sec Date_now) w)))
      = obj_get k (protectedHeader (this w))) /\
     (k <> "signedAt" ->
      obj_get k (protectedHeader (this (after (setSignedAt sec Date_now) w)))
      = obj_get k (protectedHeader (this w)))).
Proof.
  split; [|split].
  - intros sec. split; run_method; apply obj_get_set_same.
  - exists (Date_now / 1000)%Z. split.
    + pose proof (Z.div_mod Date_now 1000 ltac:(lia)) as Hdm.
      pose proof (Z.mod_pos_bound Date_now 1000 ltac:(lia)) as Hb.
      lia.
    + split; run_method; apply obj_get_set_same.
  - intros sec k. split; intros Hk; run_method;
      now apply obj_get_set_other.
Qed.

Lemma timestamps_in_seconds_witness :
  obj_get "alg"
    (protectedHeader
       (this (after (setIssuedAt (Some 0%Z) 1700000000123)
                (after (setProtectedHeader [("alg", VStr "ES256")])
                   (new_Sign None)))))
  = VStr "ES256".
Proof.
  refine (proj1 (proj2 (proj2 (timestamps_in_seconds
            (after (setProtectedHeader [("alg", VStr "ES256")])
               (new_Sign None)) 1700000000123)) (Some 0%Z) "alg") _).
  discriminate.
Defined.

(** ** Outcomes of [sign] *)


(** The detached branch of [sign] in the package. *)
Lemma Jades_sign_detached E key w :
  alg_missing_or_none (protectedHeader (this w)) = false ->
  payload (this w) = None ->
  Jades.sign E key w =
  match JWTSigner_sign E (obj_get "alg" (protectedHeader (this w)))
          (spec_detached_signing_input (protectedHeader (this w)))
          key (calls w) with
  | (Return _, calls') =>
      (Return (Fulfilled (this w)), {| this := this w; calls := calls' |})
  | (Throw e, calls') =>
      (Return (Rejected e), {| this := this w; calls := calls' |})
  end.
Proof.
  intros Halg Hpay. rewrite JWTSigner_sign_run.
  unfold spec_detached_signing_input. run_sign. rewrite Halg.
  destruct (serialized (this w)); simpl; rewrite Hpay; simpl;
    destruct (createSignature E _ _ key (calls w)) as [[sig|e] calls'];
    reflexivity.
Qed.

Lemma world_eta w : {| this := this w; calls := calls w |} = w.
Proof. now destruct w. Qed.



(** X9: [setProtectedHeader] lets through every [alg] that is truthy and not
    ["none"], catalogued or not; an algorithm outside the catalog comes out
    only at [sign]: on a detached instance, in either revision, the promise
    is rejected with "Unsupported algorithm: <alg>", the signature primitive
    is not called and the instance is as before. *)
Theorem uncatalogued_alg_rejected_at_sign (E : Collaborators) (r : revision)
    (key : KeyObject) (kid : string) (w : World) (header : object) :
  alg_missing_or_none header = false ->
  (forall a, In a AlgorithmCatalog -> obj_get "alg" header <> VStr a) ->
  payload (this w) = None ->
  serialized (this w) = None ->
  let w1 := after (setProtectedHeader header) w in
  fst (setProtectedHeader header w) = Return (this w1) /\
  sign_of E r key kid w1 =
  (Return (Rejected (mkError ("Unsupported algorithm: "
                                ++ js_to_string (obj_get "alg" header)))),
   w1).
Proof.
  intros Hvalid Hnot Hpay Hser. cbv zeta. unfold after.
  rewrite setProtectedHeader_run, Hvalid. cbn [fst snd].
  split; [reflexivity|].
  set (w1 := after (put_protectedHeader header) w).
  assert (Hh : protectedHeader (this w1) = header) by reflexivity.
  assert (Hp : payload (this w1) = None) by exact Hpay.
  assert (Hs : serialized (this w1) = None) by exact Hser.
  assert (Hv : alg_missing_or_none (protectedHeader (this w1)) = false)
    by (rewrite Hh; exact Hvalid).
  assert (Hthrow : forall input,
            JWTSigner_sign E (obj_get "alg" header) input key (calls w1)
            = (Throw (mkError ("Unsupported algorithm: "
                                 ++ js_to_string (obj_get "alg" header))),
               calls w1)).
  { intros input. rewrite JWTSigner_sign_run.
    destruct (createSignature_cases E (obj_get "alg" header) input key
                (calls w1)) as [(a & c & Ha & Hin & _) | [_ H]];
      [destruct (Hnot a Hin Ha) | exact H]. }
  destruct r; cbn [sign_of].
  - rewrite (Jades_sign_detached E key w1 Hv Hp), Hh, Hthrow.
    now rewrite world_eta.
  - rewrite (Example_sign_detached E key kid w1 Hv Hs Hp). cbv zeta.
    rewrite Hh, Hthrow. now rewrite world_eta.
Qed.

Lemma uncatalogued_alg_rejected_at_sign_witness :
  let w1 :=
    after (setProtectedHeader [("alg", VStr "HS256")]) (new_Sign None) in
  Jades.sign fake sample_key w1
  = (Return (Rejected (mkError "Unsupported algorithm: HS256")), w1).
Proof.
  cbv zeta.
  refine (proj2 (uncatalogued_alg_rejected_at_sign fake Package sample_key
                   "key-1" (new_Sign None) [("alg", VStr "HS256")]
                   eq_refl _ eq_refl eq_refl)).
  intros a Hin [= <-]. simpl in Hin. intuition discriminate.
Defined.

(** X10: with a payload, [sign] of [packages/jades/src/sign.ts] does
    nothing at all: whenever the [alg] check passes, catalogued algorithm or
    not, the promise is fulfilled with the instance, the signature primitive
    has not been called and no field has changed. *)
Theorem Jades_sign_with_payload_does_nothing (E : Collaborators)
    (key : KeyObject) (w : World) (p : object) :
  alg_missing_or_none (protectedHeader (this w)) = false ->
  payload (this w) = Some p ->
  Jades.sign E key w = (Return (Fulfilled (this w)), w).
Proof.
  intros Halg Hpay. run_sign. rewrite Halg.
  destruct (serialized (this w)); simpl; now rewrite Hpay.
Qed.

Lemma Jades_sign_with_payload_does_nothing_witness :
  let w :=
    after (setProtectedHeader [("alg", VStr "HS256")])
      (new_Sign (Some [("hello", VStr "world")])) in
  Jades.sign failing sample_key w = (Return (Fulfilled (this w)), w).
Proof.
  cbv zeta.
  apply (Jades_sign_with_payload_does_nothing failing sample_key _
           [("hello", VStr "world")]); reflexivity.
Defined.

(** [sign] of the example's revision assigns [serialized] and nothing else of
    the instance. *)
Lemma Example_sign_fields E key kid w :
  let w' := after (Example.sign E key kid) w in
  protectedHeader (this w') = protectedHeader (this w) /\
  payload (this w') = payload (this w) /\
  disclosureFrame (this w') = disclosureFrame (this w).
Proof.
  cbv zeta. unfold after.
  destruct (alg_missing_or_none (protectedHeader (this w))) eqn:Halg.
  { pose proof (sign_alg_check E ExampleRevision key kid w Halg) as Hs.
    cbn [sign_of] in Hs. rewrite Hs. repeat split. }
  destruct (serialized (this w)) as [j|] eqn:Hser.
  { rewrite (Example_sign_append E key kid w j Halg Hser). repeat split. }
  destruct (payload (this w)) as [p|] eqn:Hpay.
  - rewrite (Example_sign_issuance E key kid w p Halg Hser Hpay).
    destruct (issue E _ _ (calls w)) as [[j|e] calls']; simpl;
      rewrite ?Hpay; repeat split.
  - rewrite (Example_sign_detached E key kid w Halg Hser Hpay). cbv zeta.
    destruct (JWTSigner_sign E _ _ key (calls w)) as [[sig|e] calls']; simpl;
      rewrite ?Hpay; repeat split.
Qed.

(** X11: in the example's revision signing is once only.  After a [sign]
    that was fulfilled, every further [sign], with whatever key and kid, is
    fulfilled without doing anything: no call of the signature primitive, no
    signature appended, the state as it was, and [toJSON] returns the same
    artifact before and after. *)
Theorem Example_sign_again_does_nothing (E : Collaborators)
    (key : KeyObject) (kid : string) (w : World) (s : Sign) :
  fst (Example.sign E key kid w) = Return (Fulfilled s) ->
  let w' := after (Example.sign E key kid) w in
  forall key2 kid2,
    Example.sign E key2 kid2 w' = (Return (Fulfilled (this w')), w') /\
    toJSON (after (Example.sign E key2 kid2) w') = toJSON w'.
Proof.
  intros Hful. cbv zeta. intros key2 kid2.
  destruct (Example_sign_stores E key kid w s Hful) as (_ & j & Hser & _).
  destruct (Example_sign_fields E key kid w) as (Hh & _ & _).
  assert (Halg : alg_missing_or_none (protectedHeader (this w)) = false).
  { destruct (alg_missing_or_none (protectedHeader (this w))) eqn:Halg;
      [|reflexivity].
    pose proof (sign_alg_check E ExampleRevision key kid w Halg) as Hs.
    cbn [sign_of] in Hs. rewrite Hs in Hful. discriminate. }
  rewrite <- Hh in Halg.
  assert (Hrun := Example_sign_append E key2 kid2 _ j Halg Hser).
  split; [exact Hrun|].
  unfold after at 1. now rewrite Hrun.
Qed.

Lemma Example_sign_again_does_nothing_witness :
  let w0 :=
    after (setProtectedHeader [("alg", VStr "RS256")]) (new_Sign None) in
  let w1 := after (Example.sign fake sample_key "key-1") w0 in
  Example.sign fake (KeyHandle 8) "key-2" w1
  = (Return (Fulfilled (this w1)), w1).
Proof.
  cbv zeta.
  exact (proj1 (Example_sign_again_does_nothing fake sample_key "key-1"
                  (after (setProtectedHeader [("alg", VStr "RS256")])
                     (new_Sign None)) _ eq_refl (KeyHandle 8) "key-2")).
Defined.

(** X12: what the example's revision stores in detached mode is what it
    signed.  After a fulfilled [sign] on an unsigned instance without
    payload there is one new call of the primitive, with the key given; the
    stored entry's [protected] is a text [p] of the URL-safe alphabet (so
    without [.] and [=]), the data signed is [p] followed by [.] and the
    empty payload stored, and the stored [signature] is the base64url text of
    the bytes the primitive returned on that call. *)
Theorem Example_detached_artifact_is_what_was_signed (E : Collaborators)
    (key : KeyObject) (kid : string) (w : World) (s : Sign) :
  payload (this w) = None ->
  serialized (this w) = None ->
  fst (Example.sign E key kid w) = Return (Fulfilled s) ->
  let w' := after (Example.sign E key kid) w in
  exists c sig p,
    calls w' = (calls w ++ [c])%list /\
    SignCall.key c = key /\
    signer_sign E c = Return sig /\
    string_forall is_base64url_char p = true /\
    ~ In "."%char (list_ascii_of_string p) /\
    SignCall.data c = p ++ "." ++ EmptyString /\
    serialized (this w') =
    Some {| GeneralJWS.payload := VStr EmptyString;
            GeneralJWS.signatures :=
              [{| GeneralJWS.protected := p;
                  GeneralJWS.signature := Buffer_toString_base64url sig;
                  GeneralJWS.header := None |}] |}.
Proof.
  intros Hpay Hser. cbv zeta. unfold after.
  destruct (alg_missing_or_none (protectedHeader (this w))) eqn:Halg.
  { pose proof (sign_alg_check E ExampleRevision key kid w Halg) as Hs.
    cbn [sign_of] in Hs. rewrite Hs. discriminate. }
  rewrite (Example_sign_detached E key kid w Halg Hser Hpay). cbv zeta.
  rewrite JWTSigner_sign_run.
  set (p := base64urlEncode
              (JSON_stringify_obj
                 (obj_set "kid" (VStr kid) (protectedHeader (this w))))).
  destruct (createSignature_cases E
              (obj_get "alg" (protectedHeader (this w))) (p ++ ".") key
              (calls w))
    as [(a & c & _ & _ & Hrun & Hdata & Hkey & _) | [_ Hthrow]].
  - rewrite Hrun. unfold primitive_result.
    destruct (signer_sign E c) as [sig|e] eqn:Hsig; [|discriminate].
    intros _. exists c, sig, p. simpl.
    pose proof (base64_encode_url_alphabet
                  (map Byte.to_N
                     (list_byte_of_string
                        (JSON_stringify_obj
                           (obj_set "kid" (VStr kid)
                              (protectedHeader (this w))))))) as Hp.
    split; [reflexivity|]. split; [exact Hkey|]. split; [exact Hsig|].
    split; [exact Hp|]. split.
    + intros Hin. apply (string_forall_In _ _ _ Hp) in Hin. discriminate Hin.
    + split; [|reflexivity]. rewrite Hdata. reflexivity.
  - rewrite Hthrow. discriminate.
Qed.

Lemma Example_detached_artifact_is_what_was_signed_witness :
  let w0 :=
    after (setProtectedHeader [("alg", VStr "ES512")]) (new_Sign None) in
  exists c sig p,
    calls (after (Example.sign fake sample_key "key-1") w0) = [c] /\
    signer_sign fake c = Return sig /\
    SignCall.data c = p ++ ".".
Proof.
  cbv zeta.
  destruct (Example_detached_artifact_is_what_was_signed fake sample_key
              "key-1"
              (after (setProtectedHeader [("alg", VStr "ES512")])
                 (new_Sign None)) _ eq_refl eq_refl eq_refl)
    as (c & sig & p & Hcalls & _ & Hsig & _ & _ & Hdata & _).
  exists c, sig, p. split; [exact Hcalls|]. split; [exact Hsig|exact Hdata].
Defined.

(** X13: with a payload the example's revision leaves the signing to the
    SD-JWT engine.  The engine is handed the payload, the disclosure frame
    as set, the header as it is (the [kid] goes beside it, it is not merged
    in as in detached mode) and a signer that is [JWTSigner.sign] with the
    header's [alg] and the key (its own [alg] test cannot fail here).  What
    the engine returns is stored as it is and [toJSON] returns it; when the
    engine throws, [sign] is rejected with that error and the instance is as
    before, unsigned. *)
Theorem Example_issuance_hands_over_to_engine (E : Collaborators)
    (key : KeyObject) (kid : string) (w : World) (p : object) :
  alg_missing_or_none (protectedHeader (this w)) = false ->
  serialized (this w) = None ->
  payload (this w) = Some p ->
  let h := protectedHeader (this w) in
  let request :=
    {| hashAlg := "sha-256";
       signAlg := obj_get "alg" h;
       issue_payload := p;
       issue_disclosureFrame := disclosureFrame (this w);
       sig_alg := obj_get "alg" h;
       sig_kid := kid;
       sig_header := h |} in
  let w' := after (Example.sign E key kid) w in
  (forall data t,
     Example.signer E h key data t
     = JWTSigner_sign E (obj_get "alg" h) data key t) /\
  (forall j calls',
     issue E request (Example.signer E h key) (calls w) = (Return j, calls') ->
     fst (Example.sign E key kid w) = Return (Fulfilled (this w')) /\
     calls w' = calls' /\
     toJSON w' = (Return j, w')) /\
  (forall e calls',
     issue E request (Example.signer E h key) (calls w) = (Throw e, calls') ->
     Example.sign E key kid w =
     (Return (Rejected e), {| this := this w; calls := calls' |})).
Proof.
  intros Halg Hser Hpay. cbv zeta. unfold after.
  rewrite (Example_sign_issuance E key kid w p Halg Hser Hpay).
  split; [|split].
  - intros data t. unfold Example.signer.
    unfold alg_missing_or_none in Halg. apply orb_false_iff in Halg.
    destruct Halg as [Ht _]. now rewrite Ht.
  - intros j calls' Hissue. rewrite Hissue. repeat split.
  - intros e calls' Hissue. now rewrite Hissue.
Qed.

Lemma Example_issuance_hands_over_to_engine_witness :
  let w :=
    after (setProtectedHeader [("alg", VStr "ES256")])
      (new_Sign (Some [("hello", VStr "world")])) in
  exists j,
    toJSON (after (Example.sign fake sample_key "key-1") w)
    = (Return j, after (Example.sign fake sample_key "key-1") w) /\
    GeneralJWS.payload j = VObj [("hello", VStr "world")].
Proof.
  cbv zeta. eexists. split.
  - refine (proj2 (proj2 (proj1 (proj2
              (Example_issuance_hands_over_to_engine fake sample_key "key-1"
                 (after (setProtectedHeader [("alg", VStr "ES256")])
                    (new_Sign (Some [("hello", VStr "world")])))
                 [("hello", VStr "world")] eq_refl eq_refl eq_refl))
              _ _ eq_refl))).
  - reflexivity.
Defined.

(** ** Calls of the primitive, thumbprints *)

(** X14: the options [JWTSigner.sign] passes to the signature primitive
    follow the family of the algorithm.  For every catalogued identifier one
    call is made, with the signing input and the key given; it carries a
    [padding] exactly for RS256 to PS512 and a [dsaEncoding] (which is then
    ['ieee-p1363']) exactly for ES256, ES384, ES512; for EdDSA it carries
    neither. *)
Theorem primitive_options_by_family (E : Collaborators) (input : string)
    (key : KeyObject) (calls0 : Trace) (a : string) :
  In a AlgorithmCatalog ->
  exists c,
    JWTSigner_sign E (VStr a) input key calls0 = primitive_result E c calls0 /\
    SignCall.data c = input /\
    SignCall.key c = key /\
    (SignCall.padding c <> None <->
     In a ["RS256"; "RS384"; "RS512"; "PS256"; "PS384"; "PS512"]) /\
    (SignCall.dsaEncoding c <> None <-> In a ["ES256"; "ES384"; "ES512"]) /\
    (SignCall.dsaEncoding c <> None ->
     SignCall.dsaEncoding c = Some "ieee-p1363").
Proof.
  intros Hin. rewrite JWTSigner_sign_run. simpl in Hin.
  repeat (destruct Hin as [<-|Hin]; [
    unfold createSignature; cbn [strict_eq_str String.eqb Ascii.eqb Bool.eqb];
    cbv zeta iota;
    rewrite ?createRSASignature_run, ?createECDSASignature_run,
      ?createEdDSASignature_run;
    eexists; split; [reflexivity|]; simpl;
    repeat split; try congruence; intuition congruence |]).
  contradiction.
Qed.

Lemma primitive_options_by_family_witness :
  exists c,
    JWTSigner_sign fake (VStr "PS384") "e30." sample_key []
    = primitive_result fake c [] /\
    SignCall.padding c <> None.
Proof.
  destruct (primitive_options_by_family fake "e30." sample_key [] "PS384")
    as (c & Hrun & _ & _ & Hpad & _).
  - simpl. tauto.
  - exists c. split; [exact Hrun|]. apply Hpad. simpl. tauto.
Defined.

(** X15: the thumbprint setters.  [setX5tS256] stores under [x5t#256] the
    base64url text of the SHA-256 digest of the certificate, [setX5tSo]
    under [x5t#o] the pair with the SHA-512 digest; both texts are in the
    URL-safe alphabet, unpadded.  The pair [setX5tSo] stores for a
    certificate is the very element [setX5ts] stores for it in a chain. *)
Theorem thumbprint_setters (E : Collaborators) (cert : X509Certificate)
    (w : World) :
  let digest a := Buffer_toString_base64url (createHash E a (raw cert)) in
  obj_get "x5t#256" (protectedHeader (this (after (setX5tS256 E cert) w)))
  = VStr (digest "sha-256") /\
  obj_get "x5t#o" (protectedHeader (this (after (setX5tSo E cert) w)))
  = VObj [("digAlg", VStr "sha-512"); ("digVal", VStr (digest "sha-512"))] /\
  (forall a, string_forall is_base64url_char (digest a) = true /\
             ~ In "="%char (list_ascii_of_string (digest a))) /\
  (forall certs i elems,
     2 <= length certs ->
     nth_error certs i = Some cert ->
     obj_get "x5t#s" (protectedHeader (this (after (setX5ts E certs) w)))
     = VArr elems ->
     nth_error elems i
     = Some (obj_get "x5t#o"
               (protectedHeader (this (after (setX5tSo E cert) w))))).
Proof.
  cbv zeta. split; [|split; [|split]].
  - run_method. apply obj_get_set_same.
  - run_method. apply obj_get_set_same.
  - intros a. apply Buffer_toString_base64url_unpadded.
  - intros certs i elems Hlen Hi. unfold after, setX5ts.
    destruct (Nat.ltb_spec (length certs) 2) as [Hlt|_]; [lia|].
    run_method. rewrite !obj_get_set_same. intros [= <-].
    now rewrite nth_error_map, Hi.
Qed.

Lemma thumbprint_setters_witness :
  nth_error
    (match obj_get "x5t#s"
             (protectedHeader
                (this (after (setX5ts fake [sample_cert x01; sample_cert x02])
                         (new_Sign None)))) with
     | VArr elems => elems
     | _ => []
     end) 1
  = Some (obj_get "x5t#o"
            (protectedHeader
               (this (after (setX5tSo fake (sample_cert x02))
                        (new_Sign None))))).
Proof.
  apply (proj2 (proj2 (proj2 (thumbprint_setters fake (sample_cert x02)
                                (new_Sign None))))
           [sample_cert x01; sample_cert x02] 1).
  - simpl. lia.
  - reflexivity.
  - reflexivity.
Defined.

(** X16: in detached mode of the example's revision the [kid] is part of the
    header that is signed, not of the instance.  The signed header has the
    [kid] argument under [kid], whatever the protected header had there, and
    every other key as in the protected header; the protected header of the
    instance is after [sign] what it was before. *)
Theorem Example_kid_in_signed_header_only (E : Collaborators)
    (key : KeyObject) (kid : string) (w : World) (s : Sign) :
  payload (this w) = None ->
  serialized (this w) = None ->
  fst (Example.sign E key kid w) = Return (Fulfilled s) ->
  let w' := after (Example.sign E key kid) w in
  exists signed sig,
    serialized (this w') =
    Some {| GeneralJWS.payload := VStr EmptyString;
            GeneralJWS.signatures :=
              [{| GeneralJWS.protected :=
                    base64urlEncode (JSON_stringify_obj signed);
                  GeneralJWS.signature := sig;
                  GeneralJWS.header := None |}] |} /\
    obj_get "kid" signed = VStr kid /\
    (forall k, k <> "kid" ->
       obj_get k signed = obj_get k (protectedHeader (this w))) /\
    protectedHeader (this w') = protectedHeader (this w).
Proof.
  intros Hpay Hser Hful. cbv zeta.
  destruct (Example_sign_fields E key kid w) as (Hh & _ & _).
  revert Hful. unfold after.
  destruct (alg_missing_or_none (protectedHeader (this w))) eqn:Halg.
  { pose proof (sign_alg_check E ExampleRevision key kid w Halg) as Hs.
    cbn [sign_of] in Hs. rewrite Hs. discriminate. }
  unfold after in Hh. revert Hh.
  rewrite (Example_sign_detached E key kid w Halg Hser Hpay). cbv zeta.
  destruct (JWTSigner_sign E _ _ key (calls w)) as [[sig|e] calls'];
    [|discriminate].
  intros Hh _.
  exists (obj_set "kid" (VStr kid) (protectedHeader (this w))), sig.
  split; [reflexivity|]. split; [apply obj_get_set_same|].
  split; [|exact Hh].
  intros k Hk. now apply obj_get_set_other.
Qed.

Lemma Example_kid_in_signed_header_only_witness :
  let w :=
    after (setProtectedHeader [("alg", VStr "ES256"); ("kid", VStr "old")])
      (new_Sign None) in
  obj_get "kid"
    (protectedHeader (this (after (Example.sign fake sample_key "key-1") w)))
  = VStr "old" /\
  exists j, serialized (this (after (Example.sign fake sample_key "key-1") w))
            = Some j.
Proof.
  cbv zeta.
  destruct (Example_kid_in_signed_header_only fake sample_key "key-1"
              (after (setProtectedHeader
                        [("alg", VStr "ES256"); ("kid", VStr "old")])
                 (new_Sign None)) _ eq_refl eq_refl eq_refl)
    as (signed & sig & Hser & _ & _ & Hh).
  split.
  - rewrite Hh. reflexivity.
  - eexists. exact Hser.
Defined.
